(** * PawfectBite: the client-side pet CRUD logic, embedded and verified

    The development follows the three front-end sources

    - [features/pets/components/PetFormDialog.tsx] (form state, validation,
      submission),
    - [features/pets/components/DeleteConfirmDialog.tsx] (delete confirmation),
    - [pages/MyPetsPage.tsx] (the page that owns the in-memory pet list),

    as a shallow embedding: React state becomes a record threaded through a
    small state-and-exception monad, [await]ed calls become monadic calls whose
    outcome is either a value or a thrown JavaScript value, and the props
    [onSubmit], [onClose] and [onConfirm] are callbacks acting on the state of
    the enclosing component. *)

From Stdlib Require Import QArith.
From stdpp Require Import base option list strings gmap.

Set Default Proof Using "Type".
Local Open Scope N_scope.

(** ** JavaScript values *)

(** A JavaScript string is a sequence of UTF-16 code units. *)
Abbreviation jsstring := (list N).

(** An ASCII literal of the source, as code units. *)
Definition lit (s : string) : jsstring :=
  Ascii.N_of_ascii <$> String.list_ascii_of_string s.

(** [!s] for a string: only the empty string is falsy. *)
Definition falsy (s : jsstring) : bool := bool_decide (s = []).

(** [!s] for an optional string property: [undefined] and [''] are falsy. *)
Definition falsy_opt (s : option jsstring) : bool :=
  match s with
  | None => true
  | Some v => falsy v
  end.

(** [a || b] where [a] may be absent and [b] is a string. *)
Definition or_else (a : option jsstring) (b : jsstring) : jsstring :=
  match a with
  | Some v => if falsy v then b else v
  | None => b
  end.

(** ECMAScript [WhiteSpace] and [LineTerminator] code points, the characters
    that [String.prototype.trim] strips. All of them lie in the basic
    multilingual plane, so each one is a single code unit. *)
Definition isWhiteSpace (c : N) : bool :=
  (c =? 0x0009) || (c =? 0x000A) || (c =? 0x000B) || (c =? 0x000C)
  || (c =? 0x000D) || (c =? 0x0020) || (c =? 0x00A0) || (c =? 0x1680)
  || ((0x2000 <=? c) && (c <=? 0x200A))
  || (c =? 0x2028) || (c =? 0x2029) || (c =? 0x202F) || (c =? 0x205F)
  || (c =? 0x3000) || (c =? 0xFEFF).

Fixpoint trimStart (s : jsstring) : jsstring :=
  match s with
  | [] => []
  | c :: s' => if isWhiteSpace c then trimStart s' else s
  end.

Definition trimEnd (s : jsstring) : jsstring :=
  reverse (trimStart (reverse s)).

(** [s.trim()] *)
Definition trim (s : jsstring) : jsstring := trimEnd (trimStart s).

(** A JavaScript number. Only finite values are modelled (the form stores
    [parseFloat(v) || 0], which is never [NaN]); a finite binary float is a
    rational, and its comparison with [0] is exact. *)
Abbreviation number := Q.

(** [x <= 0] *)
Definition le_zero (x : number) : bool := Qle_bool x 0.

(** A thrown value: an instance of [Error] carrying a message, or anything
    else. *)
Inductive thrown : Type :=
  | ErrorObject (message : jsstring)
  | OtherValue (repr : jsstring).

(** [error instanceof Error ? error.message : fallback] *)
Definition messageOr (fallback : jsstring) (e : thrown) : jsstring :=
  match e with
  | ErrorObject m => m
  | OtherValue _ => fallback
  end.

(** ** Computations that read and write component state and may throw *)

Inductive Res (A : Type) : Type :=
  | Returned (a : A)
  | Thrown (e : thrown).
Arguments Returned {A} a.
Arguments Thrown {A} e.

Definition M (S A : Type) : Type := S -> Res A * S.

Section Monad.
Context {S : Type}.

Definition ret {A} (a : A) : M S A := fun s => (Returned a, s).

Definition bind {A B} (m : M S A) (k : A -> M S B) : M S B :=
  fun s =>
    match m s with
    | (Returned a, s') => k a s'
    | (Thrown e, s') => (Thrown e, s')
    end.

Definition throw {A} (e : thrown) : M S A := fun s => (Thrown e, s).

Definition get : M S S := fun s => (Returned s, s).

Definition modify (f : S -> S) : M S unit := fun s => (Returned tt, f s).

(** [try { body } catch (e) { handler(e) }] *)
Definition try_catch {A} (body : M S A) (handler : thrown -> M S A) : M S A :=
  fun s =>
    match body s with
    | (Returned a, s') => (Returned a, s')
    | (Thrown e, s') => handler e s'
    end.

(** [try { body } finally { final }]: [final] always runs; the outcome is
    that of [body] unless [final] itself throws. *)
Definition try_finally {A} (body : M S A) (final : M S unit) : M S A :=
  fun s =>
    match body s with
    | (r, s') =>
        match final s' with
        | (Returned _, s'') => (r, s'')
        | (Thrown e, s'') => (Thrown e, s'')
        end
    end.
End Monad.

Notation "x <- m ;; k" := (bind m (fun x => k))
(at level 100, m at next level, right associativity, only parsing).
Notation "m ;;; k" := (bind m (fun _ => k))
(at level 100, right associativity, only parsing).

(** ** Data model ([shared/types/pet.types]) *)

Inductive HealthStatus : Type := healthy | needs_attention.

Module PetFormData.
(** The candidate record held by the form. *)
Record t : Type := mk {
  name : jsstring;
  type : jsstring;
  breed : jsstring;
  age : number;
  weight : number;
  activityLevel : jsstring;
  healthIssues : jsstring;
  imageUrl : jsstring;
  isDesexed : bool
}.
End PetFormData.

Module Pet.
(** Modelled from the spec: the declaration of [Pet] in
    [shared/types/pet.types] is not among the sources. Its fields are those
    of the demo records and of section 3 of the specification; the health
    issues, the image reference and the derived health status may be absent,
    as the [||] fall-backs of the code expect. *)
Record t : Type := mk {
  id : jsstring;
  name : jsstring;
  type : jsstring;
  breed : jsstring;
  age : number;
  weight : number;
  activityLevel : jsstring;
  healthIssues : option jsstring;
  imageUrl : option jsstring;
  isDesexed : bool;
  healthStatus : option HealthStatus
}.
End Pet.

(** ** Observable calls

    Every call that leaves a component (a prop callback, a request of the API
    client, a console message) is recorded, in order, so that "is called" and
    "is never called" can be stated. *)
Inductive Event : Type :=
  | CallOnSubmit (petData : PetFormData.t)
  | CallOnConfirm
  | CallOnClose
  | ApiGetPets
  | ApiCreatePet (petData : PetFormData.t)
  | ApiUpdatePet (id : jsstring) (petData : PetFormData.t)
  | ApiDeletePet (id : jsstring)
  | ConsoleLog (text : string)
  | ConsoleError (text : string) (e : thrown).

(** A dialog component: its own state [L], the state [W] of the component
    that renders it (reached only through the props), and the calls made. *)
Module Env.
Record t (L W : Type) : Type := mk {
  self : L;
  parent : W;
  calls : list Event
}.
Arguments mk {L W} _ _ _.
Arguments self {L W} _.
Arguments parent {L W} _.
Arguments calls {L W} _.
End Env.

Section Dialog.
Context {L W : Type}.

(** A state setter of the dialog, [setX(v)]. *)
Definition setSelf (f : L -> L) : M (Env.t L W) unit :=
  modify (fun s => Env.mk (f (Env.self s)) (Env.parent s) (Env.calls s)).

(** Calling (and awaiting) a prop: the call is recorded, the callback runs on
    the parent's state, and what it throws is thrown at the call site. *)
Definition callProp {A} (ev : Event) (callback : M W A) : M (Env.t L W) A :=
  fun s =>
    match callback (Env.parent s) with
    | (r, w) => (r, Env.mk (Env.self s) w (Env.calls s ++ [ev]))
    end.

(** [console.error(text, e)] *)
Definition dialogConsoleError (text : string) (e : thrown) : M (Env.t L W) unit :=
  modify (fun s =>
    Env.mk (Env.self s) (Env.parent s) (Env.calls s ++ [ConsoleError text e])).
End Dialog.

(** ** The pet form dialog ([PetFormDialog.tsx]) *)
Module PetFormDialog.

Record Props (W : Type) : Type := mkProps {
  open : bool;
  onClose : M W unit;
  onSubmit : PetFormData.t -> M W unit;
  pet : option Pet.t;
  loading : bool
}.
Arguments mkProps {W} _ _ _ _ _.
Arguments open {W} _.
Arguments onClose {W} _.
Arguments onSubmit {W} _ _.
Arguments pet {W} _.
Arguments loading {W} _.

(** The three [useState] cells of the component. *)
Record State : Type := mkState {
  formData : PetFormData.t;
  errors : gmap string jsstring;
  submitError : jsstring
}.

Definition setFormData (v : PetFormData.t) (s : State) : State :=
  mkState v (errors s) (submitError s).
Definition setErrors (v : gmap string jsstring) (s : State) : State :=
  mkState (formData s) v (submitError s).
Definition setSubmitError (v : jsstring) (s : State) : State :=
  mkState (formData s) (errors s) v.

(** The defaults of a new pet. *)
Definition defaults : PetFormData.t :=
  PetFormData.mk [] [] [] 0%Q 0%Q [] (lit "None") [] false.

Definition initial : State := mkState defaults ∅ [].

(** The error mapping that [validateForm] builds from the candidate record. *)
Definition newErrors (formData : PetFormData.t) : gmap string jsstring :=
  let e0 : gmap string jsstring := ∅ in
  let e1 :=
    if falsy (trim (PetFormData.name formData))
    then <["name" := lit "Pet name is required"]> e0 else e0 in
  let e2 :=
    if falsy (PetFormData.type formData)
    then <["type" := lit "Pet type is required"]> e1 else e1 in
  let e3 :=
    if falsy (trim (PetFormData.breed formData))
    then <["breed" := lit "Breed is required"]> e2 else e2 in
  let e4 :=
    if le_zero (PetFormData.age formData)
    then <["age" := lit "Age must be greater than 0"]> e3 else e3 in
  let e5 :=
    if le_zero (PetFormData.weight formData)
    then <["weight" := lit "Weight must be greater than 0"]> e4 else e4 in
  let e6 :=
    if falsy (PetFormData.activityLevel formData)
    then <["activityLevel" := lit "Activity level is required"]> e5 else e5 in
  e6.

(** The form populated with the data of the pet being edited. *)
Definition fromPet (pet : Pet.t) : PetFormData.t :=
  PetFormData.mk (Pet.name pet) (Pet.type pet) (Pet.breed pet) (Pet.age pet)
    (Pet.weight pet) (Pet.activityLevel pet)
    (or_else (Pet.healthIssues pet) (lit "None"))
    (or_else (Pet.imageUrl pet) [])
    (Pet.isDesexed pet).

(** The calls [handleInputChange(field, value)] that the markup makes: one
    per input, with the value the input delivers (text, number or flag). The
    two number inputs pass [parseFloat(e.target.value) || 0]. *)
Inductive Input : Type :=
  | InputName (value : jsstring)
  | InputType (value : jsstring)
  | InputBreed (value : jsstring)
  | InputAge (value : number)
  | InputWeight (value : number)
  | InputActivityLevel (value : jsstring)
  | InputHealthIssues (value : jsstring)
  | InputIsDesexed (value : bool)
  | InputImageUrl (value : jsstring).

(** The [field] argument of the call. *)
Definition inputKey (i : Input) : string :=
  match i with
  | InputName _ => "name"
  | InputType _ => "type"
  | InputBreed _ => "breed"
  | InputAge _ => "age"
  | InputWeight _ => "weight"
  | InputActivityLevel _ => "activityLevel"
  | InputHealthIssues _ => "healthIssues"
  | InputIsDesexed _ => "isDesexed"
  | InputImageUrl _ => "imageUrl"
  end.

(** [{ ...prev, [field]: value }] *)
Definition withInput (i : Input) (prev : PetFormData.t) : PetFormData.t :=
  match i with
  | InputName v =>
      PetFormData.mk v (PetFormData.type prev) (PetFormData.breed prev)
        (PetFormData.age prev) (PetFormData.weight prev)
        (PetFormData.activityLevel prev) (PetFormData.healthIssues prev)
        (PetFormData.imageUrl prev) (PetFormData.isDesexed prev)
  | InputType v =>
      PetFormData.mk (PetFormData.name prev) v (PetFormData.breed prev)
        (PetFormData.age prev) (PetFormData.weight prev)
        (PetFormData.activityLevel prev) (PetFormData.healthIssues prev)
        (PetFormData.imageUrl prev) (PetFormData.isDesexed prev)
  | InputBreed v =>
      PetFormData.mk (PetFormData.name prev) (PetFormData.type prev) v
        (PetFormData.age prev) (PetFormData.weight prev)
        (PetFormData.activityLevel prev) (PetFormData.healthIssues prev)
        (PetFormData.imageUrl prev) (PetFormData.isDesexed prev)
  | InputAge v =>
      PetFormData.mk (PetFormData.name prev) (PetFormData.type prev)
        (PetFormData.breed prev) v (PetFormData.weight prev)
        (PetFormData.activityLevel prev) (PetFormData.healthIssues prev)
        (PetFormData.imageUrl prev) (PetFormData.isDesexed prev)
  | InputWeight v =>
      PetFormData.mk (PetFormData.name prev) (PetFormData.type prev)
        (PetFormData.breed prev) (PetFormData.age prev) v
        (PetFormData.activityLevel prev) (PetFormData.healthIssues prev)
        (PetFormData.imageUrl prev) (PetFormData.isDesexed prev)
  | InputActivityLevel v =>
      PetFormData.mk (PetFormData.name prev) (PetFormData.type prev)
        (PetFormData.breed prev) (PetFormData.age prev)
        (PetFormData.weight prev) v (PetFormData.healthIssues prev)
        (PetFormData.imageUrl prev) (PetFormData.isDesexed prev)
  | InputHealthIssues v =>
      PetFormData.mk (PetFormData.name prev) (PetFormData.type prev)
        (PetFormData.breed prev) (PetFormData.age prev)
        (PetFormData.weight prev) (PetFormData.activityLevel prev) v
        (PetFormData.imageUrl prev) (PetFormData.isDesexed prev)
  | InputIsDesexed v =>
      PetFormData.mk (PetFormData.name prev) (PetFormData.type prev)
        (PetFormData.breed prev) (PetFormData.age prev)
        (PetFormData.weight prev) (PetFormData.activityLevel prev)
        (PetFormData.healthIssues prev) (PetFormData.imageUrl prev) v
  | InputImageUrl v =>
      PetFormData.mk (PetFormData.name prev) (PetFormData.type prev)
        (PetFormData.breed prev) (PetFormData.age prev)
        (PetFormData.weight prev) (PetFormData.activityLevel prev)
        (PetFormData.healthIssues prev) v (PetFormData.isDesexed prev)
  end.

(** What the user can do to the rendered form. *)
Inductive UserAction : Type :=
  | ClickCloseIcon            (* the close icon of the title bar *)
  | ClickCancel               (* the "Cancel" button *)
  | ClickSave                 (* the "Add Pet" / "Save Changes" button *)
  | Dismiss                   (* backdrop click or Escape *)
  | Change (input : Input).   (* typing into or toggling an input *)

Section Handlers.
Context {W : Type} (props : Props W).

(** [validateForm]: stores the mapping and tells whether it has no key. *)
Definition validateForm : M (Env.t State W) bool :=
  s <- get ;;
  let newErrors := newErrors (formData (Env.self s)) in
  setSelf (setErrors newErrors) ;;;
  ret (bool_decide (size newErrors = 0%nat)).

(** [handleSubmit] *)
Definition handleSubmit : M (Env.t State W) unit :=
  s <- get ;;
  let formData := formData (Env.self s) in
  valid <- validateForm ;;
  if negb valid then ret tt
  else
    try_catch
      (setSelf (setSubmitError []) ;;;
       callProp (CallOnSubmit formData) (onSubmit props formData) ;;;
       callProp CallOnClose (onClose props))
      (fun error =>
         setSelf (setSubmitError (messageOr (lit "An error occurred") error))).

(** The effect that runs when [open], [pet] or the edit mode changes: an open
    dialog is filled with the pet's data, or with the defaults when there is
    no pet, and both kinds of error are cleared; a closed one is left alone. *)
Definition resetOnOpen : M (Env.t State W) unit :=
  if open props then
    match pet props with
    | Some pet => setSelf (setFormData (fromPet pet))
    | None => setSelf (setFormData defaults)
    end ;;;
    setSelf (setErrors ∅) ;;;
    setSelf (setSubmitError [])
  else ret tt.

(** [handleInputChange]: the field takes the value, and a message shown for
    the field is blanked. *)
Definition handleInputChange (i : Input) : M (Env.t State W) unit :=
  s <- get ;;
  let errors := errors (Env.self s) in
  setSelf (fun prev => setFormData (withInput i (formData prev)) prev) ;;;
  if negb (falsy_opt (errors !! inputKey i))
  then
    setSelf (fun prev =>
      setErrors (<[inputKey i := []]> (PetFormDialog.errors prev)) prev)
  else ret tt.

(** The handlers that the returned markup binds. The component always
    returns the dialog and hands [open] on to it without testing it; the save
    button is disabled while [loading]. *)
Definition dispatch (a : UserAction) : M (Env.t State W) unit :=
  match a with
  | ClickCloseIcon => callProp CallOnClose (onClose props)
  | ClickCancel => callProp CallOnClose (onClose props)
  | Dismiss => callProp CallOnClose (onClose props)
  | ClickSave => if loading props then ret tt else handleSubmit
  | Change i => handleInputChange i
  end.
End Handlers.

End PetFormDialog.

(** ** The delete confirmation dialog ([DeleteConfirmDialog.tsx]) *)
Module DeleteConfirmDialog.

Record Props (W : Type) : Type := mkProps {
  open : bool;
  onClose : M W unit;
  onConfirm : M W unit;
  pet : option Pet.t;
  loading : bool
}.
Arguments mkProps {W} _ _ _ _ _.
Arguments open {W} _.
Arguments onClose {W} _.
Arguments onConfirm {W} _.
Arguments pet {W} _.
Arguments loading {W} _.

(** What the user can do to the rendered dialog. *)
Inductive UserAction : Type :=
  | ClickCancel     (* the "Cancel" button *)
  | ClickConfirm    (* the "Yes, Delete" button *)
  | Dismiss.        (* backdrop click or Escape, the [Dialog]'s [onClose] *)

Section Handlers.
Context {W : Type} (props : Props W).

(** [handleConfirm] *)
Definition handleConfirm : M (Env.t unit W) unit :=
  try_catch
    (callProp CallOnConfirm (onConfirm props) ;;;
     callProp CallOnClose (onClose props))
    (fun error => dialogConsoleError "Delete failed:" error).

(** The handlers that the returned markup binds: the component returns
    nothing without a pet, and otherwise the dialog, to which it hands [open]
    on without testing it; the confirm button is disabled while [loading]. *)
Definition dispatch (a : UserAction) : M (Env.t unit W) unit :=
  match pet props with
  | None => ret tt
  | Some _ =>
      match a with
      | ClickCancel => callProp CallOnClose (onClose props)
      | Dismiss => callProp CallOnClose (onClose props)
      | ClickConfirm => if loading props then ret tt else handleConfirm
      end
  end.
End Handlers.

End DeleteConfirmDialog.

(** ** The API client ([shared/services/api.service])

    The client is not among the sources. It is a parameter of the page: each
    request either resolves with a value or rejects with a thrown value. *)
Module apiService.
Record t : Type := mk {
  getPets : Res (list Pet.t);
  createPet : PetFormData.t -> Res Pet.t;
  updatePet : jsstring -> PetFormData.t -> Res Pet.t;
  deletePet : jsstring -> Res unit
}.
End apiService.

(** ** The page ([MyPetsPage.tsx]) *)
Module Severity.
Inductive t : Type := success | error | info | warning.
End Severity.

Module Snackbar.
Record t : Type := mk {
  open : bool;
  message : jsstring;
  severity : Severity.t
}.
End Snackbar.

Module MyPetsPage.

(** Mock data for development fallback. *)
Definition mockPets : list Pet.t :=
  [ Pet.mk (lit "1") (lit "Buddy") (lit "Dog") (lit "Golden Retriever")
      3%Q 25%Q (lit "High") (Some (lit "None")) (Some (lit "/pets/dog1.jpg"))
      true (Some healthy);
    Pet.mk (lit "2") (lit "Whiskers") (lit "Cat") (lit "Persian")
      2%Q 4%Q (lit "Low") (Some (lit "Allergies")) (Some (lit "/pets/cat1.jpg"))
      true (Some needs_attention);
    Pet.mk (lit "3") (lit "Max") (lit "Dog") (lit "German Shepherd")
      5%Q 30%Q (lit "High") (Some (lit "None")) (Some (lit "/pets/dog2.jpg"))
      true (Some healthy) ].

(** The [useState] cells of the page. *)
Record State : Type := mkState {
  pets : list Pet.t;
  loading : bool;
  error : option jsstring;
  formDialogOpen : bool;
  deleteDialogOpen : bool;
  editingPet : option Pet.t;
  deletingPet : option Pet.t;
  formLoading : bool;
  deleteLoading : bool;
  snackbar : Snackbar.t
}.

Definition initial : State :=
  mkState [] true None false false None None false false
    (Snackbar.mk false [] Severity.success).

(** The page together with the calls it has made. *)
Record World : Type := mkWorld {
  view : State;
  calls : list Event
}.

Definition onView (f : State -> State) : M World unit :=
  modify (fun w => mkWorld (f (view w)) (calls w)).

Definition setPets (f : list Pet.t -> list Pet.t) : M World unit :=
  onView (fun s =>
    mkState (f (pets s)) (loading s) (error s) (formDialogOpen s)
      (deleteDialogOpen s) (editingPet s) (deletingPet s) (formLoading s)
      (deleteLoading s) (snackbar s)).
Definition setLoading (v : bool) : M World unit :=
  onView (fun s =>
    mkState (pets s) v (error s) (formDialogOpen s)
      (deleteDialogOpen s) (editingPet s) (deletingPet s) (formLoading s)
      (deleteLoading s) (snackbar s)).
Definition setError (v : option jsstring) : M World unit :=
  onView (fun s =>
    mkState (pets s) (loading s) v (formDialogOpen s)
      (deleteDialogOpen s) (editingPet s) (deletingPet s) (formLoading s)
      (deleteLoading s) (snackbar s)).
Definition setFormDialogOpen (v : bool) : M World unit :=
  onView (fun s =>
    mkState (pets s) (loading s) (error s) v
      (deleteDialogOpen s) (editingPet s) (deletingPet s) (formLoading s)
      (deleteLoading s) (snackbar s)).
Definition setDeleteDialogOpen (v : bool) : M World unit :=
  onView (fun s =>
    mkState (pets s) (loading s) (error s) (formDialogOpen s)
      v (editingPet s) (deletingPet s) (formLoading s)
      (deleteLoading s) (snackbar s)).
Definition setEditingPet (v : option Pet.t) : M World unit :=
  onView (fun s =>
    mkState (pets s) (loading s) (error s) (formDialogOpen s)
      (deleteDialogOpen s) v (deletingPet s) (formLoading s)
      (deleteLoading s) (snackbar s)).
Definition setDeletingPet (v : option Pet.t) : M World unit :=
  onView (fun s =>
    mkState (pets s) (loading s) (error s) (formDialogOpen s)
      (deleteDialogOpen s) (editingPet s) v (formLoading s)
      (deleteLoading s) (snackbar s)).
Definition setFormLoading (v : bool) : M World unit :=
  onView (fun s =>
    mkState (pets s) (loading s) (error s) (formDialogOpen s)
      (deleteDialogOpen s) (editingPet s) (deletingPet s) v
      (deleteLoading s) (snackbar s)).
Definition setDeleteLoading (v : bool) : M World unit :=
  onView (fun s =>
    mkState (pets s) (loading s) (error s) (formDialogOpen s)
      (deleteDialogOpen s) (editingPet s) (deletingPet s) (formLoading s)
      v (snackbar s)).
Definition setSnackbar (v : Snackbar.t) : M World unit :=
  onView (fun s =>
    mkState (pets s) (loading s) (error s) (formDialogOpen s)
      (deleteDialogOpen s) (editingPet s) (deletingPet s) (formLoading s)
      (deleteLoading s) v).

Definition recordCall (ev : Event) : M World unit :=
  modify (fun w => mkWorld (view w) (calls w ++ [ev])).

(** [await apiService.request(...)]: the request is recorded and its outcome
    returned or thrown. *)
Definition request {A} (ev : Event) (outcome : Res A) : M World A :=
  fun w => (outcome, mkWorld (view w) (calls w ++ [ev])).

(** The health status that [fetchPets] computes for a fetched record. *)
Definition fetchedHealthStatus (pet : Pet.t) : HealthStatus :=
  if bool_decide (Pet.healthIssues pet = Some (lit "None"))
     || bool_decide (Pet.healthIssues pet = Some [])
  then healthy else needs_attention.

(** [{ ...pet, healthStatus: v }] *)
Definition withHealthStatus (v : HealthStatus) (pet : Pet.t) : Pet.t :=
  Pet.mk (Pet.id pet) (Pet.name pet) (Pet.type pet) (Pet.breed pet)
    (Pet.age pet) (Pet.weight pet) (Pet.activityLevel pet)
    (Pet.healthIssues pet) (Pet.imageUrl pet) (Pet.isDesexed pet) (Some v).

(** [{ ...editingPet, ...updatedPet, ...formData, id: editingPet.id }]: the
    nine form fields come from [formData], the identifier from [editingPet],
    and the health status from [updatedPet] when it has one. *)
Definition completeUpdatedPet
    (editingPet updatedPet : Pet.t) (formData : PetFormData.t) : Pet.t :=
  Pet.mk (Pet.id editingPet)
    (PetFormData.name formData) (PetFormData.type formData)
    (PetFormData.breed formData) (PetFormData.age formData)
    (PetFormData.weight formData) (PetFormData.activityLevel formData)
    (Some (PetFormData.healthIssues formData))
    (Some (PetFormData.imageUrl formData))
    (PetFormData.isDesexed formData)
    (match Pet.healthStatus updatedPet with
     | Some h => Some h
     | None => Pet.healthStatus editingPet
     end).

(** The record that a successful create adds to the list. *)
Definition newPet (createdPet : Pet.t) (formData : PetFormData.t) : Pet.t :=
  Pet.mk (Pet.id createdPet) (Pet.name createdPet) (Pet.type createdPet)
    (Pet.breed createdPet) (Pet.age createdPet) (Pet.weight createdPet)
    (Pet.activityLevel createdPet)
    (Some (or_else (Pet.healthIssues createdPet)
             (or_else (Some (PetFormData.healthIssues formData)) (lit "None"))))
    (Some (or_else (Pet.imageUrl createdPet)
             (or_else (Some (PetFormData.imageUrl formData)) [])))
    (Pet.isDesexed createdPet)
    (Some (if bool_decide (Pet.healthIssues createdPet = Some (lit "None"))
              || bool_decide (Pet.healthIssues createdPet = Some [])
              || falsy_opt (Pet.healthIssues createdPet)
           then healthy else needs_attention)).

Section Handlers.
Context (api : apiService.t) (NODE_ENV : option jsstring).

(** [fetchPets] *)
Definition fetchPets : M World unit :=
  try_finally
    (try_catch
       (setLoading true ;;;
        setError None ;;;
        recordCall (ConsoleLog "Attempting to fetch pets from .NET API...") ;;;
        fetchedPets <- request ApiGetPets (apiService.getPets api) ;;
        let petsWithHealthStatus :=
          (fun pet => withHealthStatus (fetchedHealthStatus pet) pet)
            <$> fetchedPets in
        setPets (fun _ => petsWithHealthStatus) ;;;
        recordCall (ConsoleLog "Successfully fetched pets from API:"))
       (fun apiError =>
          recordCall (ConsoleError "Failed to fetch pets from API:" apiError) ;;;
          if bool_decide (NODE_ENV = Some (lit "development"))
          then
            recordCall (ConsoleLog "Development mode: Using mock data as fallback") ;;;
            setPets (fun _ => mockPets) ;;;
            setSnackbar
              (Snackbar.mk true (lit "Using demo data - API not connected")
                 Severity.info)
          else
            let errorMessage := messageOr (lit "Failed to load pets") apiError in
            setError (Some (lit "Unable to load your pets: " ++ errorMessage))))
    (setLoading false).

(** [handleAddPet], [handleEditPet], [handleDeletePet] *)
Definition handleAddPet : M World unit :=
  setEditingPet None ;;; setFormDialogOpen true.

Definition handleEditPet (pet : Pet.t) : M World unit :=
  setEditingPet (Some pet) ;;; setFormDialogOpen true.

Definition handleDeletePet (pet : Pet.t) : M World unit :=
  setDeletingPet (Some pet) ;;; setDeleteDialogOpen true.

(** [handleFormSubmit]: create when no pet is being edited, update otherwise.
    The emoji of the two success messages are written as their surrogate
    pairs. *)
Definition handleFormSubmit (formData : PetFormData.t) : M World unit :=
  w <- get ;;
  let editingPet := editingPet (view w) in
  try_finally
    (try_catch
       (setFormLoading true ;;;
        match editingPet with
        | Some editingPet =>
            updatedPet <-
              request (ApiUpdatePet (Pet.id editingPet) formData)
                (apiService.updatePet api (Pet.id editingPet) formData) ;;
            let completeUpdatedPet :=
              completeUpdatedPet editingPet updatedPet formData in
            setPets (fun prevPets =>
              (fun pet =>
                 if bool_decide (Pet.id pet = Pet.id editingPet)
                 then completeUpdatedPet else pet) <$> prevPets) ;;;
            setSnackbar
              (Snackbar.mk true
                 (lit "Pet updated successfully! " ++ [0xD83C; 0xDF89])
                 Severity.success)
        | None =>
            createdPet <-
              request (ApiCreatePet formData) (apiService.createPet api formData) ;;
            let newPet := newPet createdPet formData in
            setPets (fun prevPets => prevPets ++ [newPet]) ;;;
            setSnackbar
              (Snackbar.mk true
                 (PetFormData.name formData
                    ++ lit " added successfully! " ++ [0xD83D; 0xDC3E])
                 Severity.success)
        end)
       (fun error =>
          recordCall (ConsoleError "API operation failed:" error) ;;;
          let errorMessage := messageOr (lit "Operation failed") error in
          setSnackbar
            (Snackbar.mk true
               (lit "Failed to "
                  ++ (match editingPet with
                      | Some _ => lit "update"
                      | None => lit "create"
                      end)
                  ++ lit " pet: " ++ errorMessage)
               Severity.error) ;;;
          throw error))
    (setFormLoading false).

(** [handleDeleteConfirm] *)
Definition handleDeleteConfirm : M World unit :=
  w <- get ;;
  match deletingPet (view w) with
  | None => ret tt
  | Some deletingPet =>
      try_finally
        (try_catch
           (setDeleteLoading true ;;;
            request (ApiDeletePet (Pet.id deletingPet))
              (apiService.deletePet api (Pet.id deletingPet)) ;;;
            setPets (fun prevPets =>
              filter (fun pet => Pet.id pet <> Pet.id deletingPet) prevPets) ;;;
            setSnackbar
              (Snackbar.mk true
                 (Pet.name deletingPet ++ lit " has been removed")
                 Severity.success))
           (fun error =>
              recordCall (ConsoleError "Delete operation failed:" error) ;;;
              let errorMessage := messageOr (lit "Delete failed") error in
              setSnackbar
                (Snackbar.mk true
                   (lit "Failed to delete " ++ Pet.name deletingPet
                      ++ lit ": " ++ errorMessage)
                   Severity.error) ;;;
              throw error))
        (setDeleteLoading false)
  end.

(** [handleFormDialogClose], [handleDeleteDialogClose] *)
Definition handleFormDialogClose : M World unit :=
  setFormDialogOpen false ;;; setEditingPet None.

Definition handleDeleteDialogClose : M World unit :=
  setDeleteDialogOpen false ;;; setDeletingPet None.

(** [handleCreateRecipe] (a placeholder). The emoji is written as its code
    units. *)
Definition handleCreateRecipe (pet : Pet.t) : M World unit :=
  setSnackbar
    (Snackbar.mk true
       (lit "Recipe feature coming soon for " ++ Pet.name pet
          ++ lit "! " ++ [0xD83C; 0xDF7D; 0xFE0F])
       Severity.info) ;;;
  recordCall (ConsoleLog "Creating recipe for:").

(** [handleSnackbarClose] *)
Definition handleSnackbarClose : M World unit :=
  onView (fun s =>
    mkState (pets s) (loading s) (error s) (formDialogOpen s)
      (deleteDialogOpen s) (editingPet s) (deletingPet s) (formLoading s)
      (deleteLoading s)
      (Snackbar.mk false (Snackbar.message (snackbar s))
         (Snackbar.severity (snackbar s)))).

(** The props that the page hands to its two dialogs. *)
Definition formDialogProps (s : State) : PetFormDialog.Props World :=
  PetFormDialog.mkProps (formDialogOpen s) handleFormDialogClose
    handleFormSubmit (editingPet s) (formLoading s).

Definition deleteDialogProps (s : State) : DeleteConfirmDialog.Props World :=
  DeleteConfirmDialog.mkProps (deleteDialogOpen s) handleDeleteDialogClose
    handleDeleteConfirm (deletingPet s) (deleteLoading s).
End Handlers.

(** What the page shows. The dashboard is described by its two counters and
    by its grid of cards ([None] stands for the empty-state panel); the
    dialogs and the notification are driven by the props and the state
    above. *)
Inductive Screen : Type :=
  | LoadingSpinner
  | ErrorAlert (message : jsstring)
  | Dashboard (totalPets healthyPets : nat) (cards : option (list Pet.t)).

(** [pet.healthStatus === 'healthy'] *)
Definition isHealthy (pet : Pet.t) : bool :=
  match Pet.healthStatus pet with
  | Some healthy => true
  | _ => false
  end.

Definition dashboard (s : State) : Screen :=
  Dashboard (length (pets s)) (length (List.filter isHealthy (pets s)))
    (if bool_decide (length (pets s) = 0%nat) then None else Some (pets s)).

(** The three returns of the component. *)
Definition render (s : State) : Screen :=
  if loading s then LoadingSpinner
  else
    match error s with
    | Some message => if falsy message then dashboard s else ErrorAlert message
    | None => dashboard s
    end.

(** The handlers of the page that are no list operation: the openers of the
    two dialogs, their closers, the recipe placeholder and the closer of the
    notification. *)
Inductive Navigation : Type :=
  | AddPet
  | EditPet (pet : Pet.t)
  | DeletePet (pet : Pet.t)
  | CreateRecipe (pet : Pet.t)
  | FormDialogClose
  | DeleteDialogClose
  | SnackbarClose.

Definition navigate (n : Navigation) : M World unit :=
  match n with
  | AddPet => handleAddPet
  | EditPet pet => handleEditPet pet
  | DeletePet pet => handleDeletePet pet
  | CreateRecipe pet => handleCreateRecipe pet
  | FormDialogClose => handleFormDialogClose
  | DeleteDialogClose => handleDeleteDialogClose
  | SnackbarClose => handleSnackbarClose
  end.

End MyPetsPage.

(** ** Vocabulary of the properties *)

(** The fields that the form requires. *)
Inductive RequiredField : Type :=
  | FieldName | FieldType | FieldBreed | FieldAge | FieldWeight
  | FieldActivityLevel.

(** The key under which a field's message is stored. *)
Definition fieldKey (f : RequiredField) : string :=
  match f with
  | FieldName => "name"
  | FieldType => "type"
  | FieldBreed => "breed"
  | FieldAge => "age"
  | FieldWeight => "weight"
  | FieldActivityLevel => "activityLevel"
  end.

(** A required field is empty (text) or non-positive (number). *)
Definition blank (formData : PetFormData.t) (f : RequiredField) : Prop :=
  match f with
  | FieldName => PetFormData.name formData = []
  | FieldType => PetFormData.type formData = []
  | FieldBreed => PetFormData.breed formData = []
  | FieldAge => (PetFormData.age formData <= 0)%Q
  | FieldWeight => (PetFormData.weight formData <= 0)%Q
  | FieldActivityLevel => PetFormData.activityLevel formData = []
  end.

(** The characters of a string are all white space. *)
Definition blankText (s : jsstring) : Prop :=
  Forall (fun c => isWhiteSpace c = true) s.

(** The test that [validateForm] applies to a required field. *)
Definition flagged (formData : PetFormData.t) (f : RequiredField) : bool :=
  match f with
  | FieldName => falsy (trim (PetFormData.name formData))
  | FieldType => falsy (PetFormData.type formData)
  | FieldBreed => falsy (trim (PetFormData.breed formData))
  | FieldAge => le_zero (PetFormData.age formData)
  | FieldWeight => le_zero (PetFormData.weight formData)
  | FieldActivityLevel => falsy (PetFormData.activityLevel formData)
  end.

(** The message that [validateForm] stores for a required field. *)
Definition fieldMessage (f : RequiredField) : jsstring :=
  match f with
  | FieldName => lit "Pet name is required"
  | FieldType => lit "Pet type is required"
  | FieldBreed => lit "Breed is required"
  | FieldAge => lit "Age must be greater than 0"
  | FieldWeight => lit "Weight must be greater than 0"
  | FieldActivityLevel => lit "Activity level is required"
  end.

(** The state that [validateForm] leaves: the mapping is stored, nothing
    else changes. *)
Definition validated {W} (s : Env.t PetFormDialog.State W)
    : Env.t PetFormDialog.State W :=
  Env.mk
    (PetFormDialog.setErrors
       (PetFormDialog.newErrors (PetFormDialog.formData (Env.self s)))
       (Env.self s))
    (Env.parent s) (Env.calls s).

(** The three operations of the page that change the list. *)
Inductive Operation : Type :=
  | Create (formData : PetFormData.t)
  | Update (editingPet : Pet.t) (formData : PetFormData.t)
  | Delete (deletingPet : Pet.t).

(** The page is set up for the operation: the pet being edited, or the
    target of the deletion, is the one the operation names. *)
Definition selected (op : Operation) (s : MyPetsPage.State) : Prop :=
  match op with
  | Create _ => MyPetsPage.editingPet s = None
  | Update editingPet _ => MyPetsPage.editingPet s = Some editingPet
  | Delete deletingPet => MyPetsPage.deletingPet s = Some deletingPet
  end.

(** The handler that carries the operation out. *)
Definition perform (api : apiService.t) (op : Operation) : M MyPetsPage.World unit :=
  match op with
  | Create formData => MyPetsPage.handleFormSubmit api formData
  | Update _ formData => MyPetsPage.handleFormSubmit api formData
  | Delete _ => MyPetsPage.handleDeleteConfirm api
  end.

(** The API call of the operation throws [e]. *)
Definition rejects (api : apiService.t) (op : Operation) (e : thrown) : Prop :=
  match op with
  | Create formData => apiService.createPet api formData = Thrown e
  | Update editingPet formData =>
      apiService.updatePet api (Pet.id editingPet) formData = Thrown e
  | Delete deletingPet =>
      apiService.deletePet api (Pet.id deletingPet) = Thrown e
  end.

(** The calls that are requests of the API client. *)
Definition isRequest (ev : Event) : bool :=
  match ev with
  | ApiGetPets | ApiCreatePet _ | ApiUpdatePet _ _ | ApiDeletePet _ => true
  | _ => false
  end.

(** The requests among the calls of the page. *)
Definition requests (w : MyPetsPage.World) : list Event :=
  List.filter isRequest (MyPetsPage.calls w).

(** The request that an operation sends. *)
Definition requestOf (op : Operation) : Event :=
  match op with
  | Create formData => ApiCreatePet formData
  | Update editingPet formData => ApiUpdatePet (Pet.id editingPet) formData
  | Delete deletingPet => ApiDeletePet (Pet.id deletingPet)
  end.

(** The API call of the operation resolves. *)
Definition resolves (api : apiService.t) (op : Operation) : Prop :=
  match op with
  | Create formData => exists createdPet,
      apiService.createPet api formData = Returned createdPet
  | Update editingPet formData => exists updatedPet,
      apiService.updatePet api (Pet.id editingPet) formData
      = Returned updatedPet
  | Delete deletingPet =>
      apiService.deletePet api (Pet.id deletingPet) = Returned tt
  end.

(** The identifiers of a list of records, in order. *)
Definition ids (pets : list Pet.t) : list jsstring := Pet.id <$> pets.

(** A submitted record as the form shows it when it is opened on the stored
    pet: empty health issues come back as "None". *)
Definition redisplayed (formData : PetFormData.t) : PetFormData.t :=
  PetFormDialog.withInput
    (PetFormDialog.InputHealthIssues
       (or_else (Some (PetFormData.healthIssues formData)) (lit "None")))
    formData.

(** A state of the form dialog rendered by the page. *)
Definition formInPage (form : PetFormDialog.State) (w : MyPetsPage.World)
    (log : list Event) : Env.t PetFormDialog.State MyPetsPage.World :=
  Env.mk form w log.

(** The delete dialog rendered by the page. *)
Definition deleteInPage (w : MyPetsPage.World) (log : list Event)
    : Env.t unit MyPetsPage.World :=
  Env.mk tt w log.

(** The health issues of a record are "None" or the empty string. *)
Definition noIssues (pet : Pet.t) : bool :=
  bool_decide (Pet.healthIssues pet = Some (lit "None"))
  || bool_decide (Pet.healthIssues pet = Some []).

(** The error mapping after an input for key [k]: a message shown under [k]
    is replaced by the empty string, the key staying in the mapping. *)
Definition blanked (k : string) (errors : gmap string jsstring)
    : gmap string jsstring :=
  if negb (falsy_opt (errors !! k)) then <[k := []]> errors else errors.

(** The six required fields. *)
Definition requiredFields : list RequiredField :=
  [FieldName; FieldType; FieldBreed; FieldAge; FieldWeight;
   FieldActivityLevel].

(** ** Strings and numbers *)

Lemma falsy_true (s : jsstring) : falsy s = true <-> s = [].
Proof. unfold falsy. apply bool_decide_eq_true. Qed.

Lemma falsy_false (s : jsstring) : falsy s = false <-> s <> [].
Proof. unfold falsy. apply bool_decide_eq_false. Qed.

Lemma le_zero_true (x : number) : le_zero x = true <-> (x <= 0)%Q.
Proof. unfold le_zero. apply Qle_bool_iff. Qed.

Lemma le_zero_not_positive (x : number) : le_zero x = true <-> ~ (0 < x)%Q.
Proof.
  rewrite le_zero_true. split.
  - apply Qle_not_lt.
  - apply Qnot_lt_le.
Qed.

Lemma le_zero_false (x : number) : le_zero x = false <-> (0 < x)%Q.
Proof.
  split; intros H.
  - apply Qnot_le_lt. intros Hle. apply le_zero_true in Hle. congruence.
  - destruct (le_zero x) eqn:E; [|reflexivity].
    apply le_zero_not_positive in E. contradiction.
Qed.

Lemma trimStart_nil (s : jsstring) : trimStart s = [] <-> blankText s.
Proof.
  unfold blankText. induction s as [|c s IH]; simpl.
  - split; [constructor | reflexivity].
  - destruct (isWhiteSpace c) eqn:E.
    + rewrite IH. split; [by constructor | by inversion 1].
    + split; [discriminate | inversion 1; congruence].
Qed.

Lemma trimStart_blank (s : jsstring) : blankText (trimStart s) <-> blankText s.
Proof.
  unfold blankText. induction s as [|c s IH]; simpl; [reflexivity|].
  destruct (isWhiteSpace c) eqn:E; [|reflexivity].
  rewrite IH. split; [by constructor | by inversion 1].
Qed.

Lemma trimEnd_nil (s : jsstring) : trimEnd s = [] <-> blankText s.
Proof.
  unfold trimEnd.
  transitivity (trimStart (reverse s) = []).
  - split; intros H.
    + apply (f_equal reverse) in H. by rewrite reverse_involutive in H.
    + by rewrite H.
  - rewrite trimStart_nil. unfold blankText. apply Forall_reverse.
Qed.

(** [!s.trim()] holds exactly for the strings made of white space only. *)
Lemma trim_nil (s : jsstring) : trim s = [] <-> blankText s.
Proof. unfold trim. by rewrite trimEnd_nil, trimStart_blank. Qed.

Lemma trim_empty : trim [] = [].
Proof. reflexivity. Qed.

Lemma lit_app_nonempty (text : string) (rest : jsstring) :
  text <> ""%string -> lit text ++ rest <> [].
Proof. destruct text; [done|]. intros _. discriminate. Qed.

(** From here on the literals of the source stay folded. *)
Opaque lit.

(** ** The error mapping of the form *)

Lemma newErrors_lookup (formData : PetFormData.t) (f : RequiredField) :
  PetFormDialog.newErrors formData !! fieldKey f
  = if flagged formData f then Some (fieldMessage f) else None.
Proof.
  unfold PetFormDialog.newErrors, flagged.
  destruct (falsy (trim (PetFormData.name formData))),
    (falsy (PetFormData.type formData)),
    (falsy (trim (PetFormData.breed formData))),
    (le_zero (PetFormData.age formData)),
    (le_zero (PetFormData.weight formData)),
    (falsy (PetFormData.activityLevel formData));
    destruct f; vm_compute; reflexivity.
Qed.

Lemma newErrors_keys (formData : PetFormData.t) (k : string) :
  is_Some (PetFormDialog.newErrors formData !! k) ->
  exists f, k = fieldKey f.
Proof.
  unfold PetFormDialog.newErrors.
  repeat match goal with
         | |- context [if ?c then _ else _] => destruct c
         end;
    rewrite ?lookup_insert_is_Some, ?lookup_empty, ?is_Some_alt;
    intros H;
    repeat match goal with
           | H : _ \/ _ |- _ => destruct H as [H|H]
           | H : _ /\ _ |- _ => destruct H as [_ H]
           | H : False |- _ => destruct H
           | H : is_Some None |- _ => by destruct H
           end;
    first [ by exists FieldName | by exists FieldType | by exists FieldBreed
          | by exists FieldAge | by exists FieldWeight
          | by exists FieldActivityLevel | idtac ].
Qed.

Lemma newErrors_empty (formData : PetFormData.t) :
  PetFormDialog.newErrors formData = ∅ <-> forall f, flagged formData f = false.
Proof.
  split.
  - intros H f. pose proof (newErrors_lookup formData f) as L.
    rewrite H, lookup_empty in L. by destruct (flagged formData f).
  - intros H. apply map_eq. intros k. rewrite lookup_empty.
    destruct (PetFormDialog.newErrors formData !! k) eqn:E; [|reflexivity].
    destruct (newErrors_keys formData k) as [f ->]; [by rewrite E|].
    rewrite newErrors_lookup, H in E. discriminate.
Qed.

Lemma newErrors_size (formData : PetFormData.t) :
  bool_decide (size (PetFormDialog.newErrors formData) = 0%nat) = true
  <-> PetFormDialog.newErrors formData = ∅.
Proof. rewrite bool_decide_eq_true. apply map_size_empty_iff. Qed.

(** A blank required field is one that the validation flags. *)
Lemma blank_flagged (formData : PetFormData.t) (f : RequiredField) :
  blank formData f -> flagged formData f = true.
Proof.
  destruct f; simpl; intros H;
    rewrite ?H, ?trim_empty, ?le_zero_true; done.
Qed.

(** ** The handlers of the form, step by step *)
Section FormSteps.
Context {W : Type} (props : PetFormDialog.Props W).
Implicit Types s : Env.t PetFormDialog.State W.

Lemma validateForm_run s :
  PetFormDialog.validateForm s
  = (Returned
       (bool_decide
          (size (PetFormDialog.newErrors (PetFormDialog.formData (Env.self s)))
           = 0%nat)),
     validated s).
Proof. reflexivity. Qed.

Lemma handleSubmit_invalid s :
  PetFormDialog.newErrors (PetFormDialog.formData (Env.self s)) <> ∅ ->
  PetFormDialog.handleSubmit props s = (Returned tt, validated s).
Proof.
  intros H. unfold PetFormDialog.handleSubmit, bind, get.
  rewrite validateForm_run.
  destruct (bool_decide _) eqn:E; [|reflexivity].
  apply newErrors_size in E. contradiction.
Qed.

Lemma handleSubmit_valid s :
  PetFormDialog.newErrors (PetFormDialog.formData (Env.self s)) = ∅ ->
  PetFormDialog.handleSubmit props s
  = try_catch
      (bind (setSelf (PetFormDialog.setSubmitError []))
         (fun _ =>
            bind
              (callProp (CallOnSubmit (PetFormDialog.formData (Env.self s)))
                 (PetFormDialog.onSubmit props
                    (PetFormDialog.formData (Env.self s))))
              (fun _ => callProp CallOnClose (PetFormDialog.onClose props))))
      (fun error =>
         setSelf
           (PetFormDialog.setSubmitError
              (messageOr (lit "An error occurred") error)))
      (validated s).
Proof.
  intros H. unfold PetFormDialog.handleSubmit, bind at 1 2, get.
  rewrite validateForm_run.
  destruct (bool_decide _) eqn:E; [reflexivity|].
  apply newErrors_size in H. congruence.
Qed.
End FormSteps.

(** ** The examples of the specification *)

Example trim_example : trim (lit "  Rex ") = lit "Rex".
Proof. by vm_compute. Qed.

Example whitespace_example :
  isWhiteSpace 0x20 = true /\ isWhiteSpace 0x2003 = true
  /\ isWhiteSpace 0xFEFF = true /\ isWhiteSpace 0x41 = false
  /\ isWhiteSpace 0x200B = false.
Proof. by vm_compute. Qed.

(** The record {name:"Rex", type:"dog", breed:"Lab", age:2, weight:20,
    activityLevel:"high"} passes validation. *)
Example rex_is_valid :
  PetFormDialog.newErrors
    (PetFormData.mk (lit "Rex") (lit "dog") (lit "Lab") 2%Q 20%Q (lit "high")
       (lit "None") [] false) = ∅.
Proof. by vm_compute. Qed.

(** The same record with age 0 fails validation on "age", and only there. *)
Example rex_age_zero_is_invalid :
  PetFormDialog.newErrors
    (PetFormData.mk (lit "Rex") (lit "dog") (lit "Lab") 0%Q 20%Q (lit "high")
       (lit "None") [] false)
  = {[ "age"%string := lit "Age must be greater than 0" ]}.
Proof. by vm_compute. Qed.

(** Submitting the valid record to an API that echoes it adds one entry, with
    health status healthy. *)
Example rex_is_added_healthy :
  let formData :=
    PetFormData.mk (lit "Rex") (lit "dog") (lit "Lab") 2%Q 20%Q (lit "high")
      (lit "None") [] false in
  let createdPet :=
    Pet.mk (lit "4") (lit "Rex") (lit "dog") (lit "Lab") 2%Q 20%Q (lit "high")
      (Some (lit "None")) None false None in
  let api :=
    apiService.mk (Returned []) (fun _ => Returned createdPet)
      (fun _ _ => Returned createdPet) (fun _ => Returned tt) in
  let r :=
    MyPetsPage.handleFormSubmit api formData
      (MyPetsPage.mkWorld MyPetsPage.initial []) in
  r.1 = Returned tt
  /\ (Pet.healthStatus <$> MyPetsPage.pets (MyPetsPage.view r.2))
     = [Some healthy].
Proof. by vm_compute. Qed.

(** ** Validation and submission *)

(** C1. Whenever a required field of the candidate record is empty (name,
    type, breed, activity level) or non-positive (age, weight),
    [validateForm] answers [false] and stores an error mapping that has the
    field's message under the field's key, and [handleSubmit] returns with
    that mapping stored without calling [onSubmit]: it makes no call at all
    and leaves the parent's state as it was. *)
Theorem C1_blank_field_rejected
    {W : Type} (props : PetFormDialog.Props W)
    (s : Env.t PetFormDialog.State W) (f : RequiredField) :
  blank (PetFormDialog.formData (Env.self s)) f ->
  let v := PetFormDialog.validateForm s in
  let h := PetFormDialog.handleSubmit props s in
  v.1 = Returned false
  /\ PetFormDialog.errors (Env.self v.2) !! fieldKey f = Some (fieldMessage f)
  /\ h.1 = Returned tt
  /\ PetFormDialog.errors (Env.self h.2) !! fieldKey f = Some (fieldMessage f)
  /\ Env.calls h.2 = Env.calls s
  /\ Env.parent h.2 = Env.parent s
  /\ (forall petData, CallOnSubmit petData ∈ Env.calls h.2 ->
                      CallOnSubmit petData ∈ Env.calls s).
Proof.
  intros Hblank v h. apply blank_flagged in Hblank.
  assert (Hne : PetFormDialog.newErrors (PetFormDialog.formData (Env.self s)) <> ∅).
  { intros He. rewrite newErrors_empty in He. specialize (He f). congruence. }
  assert (Hlook :
    PetFormDialog.newErrors (PetFormDialog.formData (Env.self s)) !! fieldKey f
    = Some (fieldMessage f)).
  { by rewrite newErrors_lookup, Hblank. }
  subst v h. rewrite (handleSubmit_invalid props s Hne), validateForm_run.
  simpl. repeat split; try done.
  f_equal. apply bool_decide_eq_false. by rewrite map_size_empty_iff.
Qed.

Lemma C1_blank_field_rejected_witness :
  let s := Env.mk PetFormDialog.initial tt [] in
  let props :=
    PetFormDialog.mkProps true (ret tt) (fun _ => throw (OtherValue [])) None
      false in
  blank (PetFormDialog.formData (Env.self s)) FieldAge
  /\ (PetFormDialog.validateForm s).1 = Returned false
  /\ Env.calls (PetFormDialog.handleSubmit props s).2 = [].
Proof.
  intros s props.
  assert (Hb : blank (PetFormDialog.formData (Env.self s)) FieldAge).
  { simpl. discriminate. }
  split; [exact Hb|].
  pose proof (C1_blank_field_rejected props s FieldAge Hb) as H.
  simpl in H. destruct H as (Hv & _ & _ & _ & Hc & _).
  split; [exact Hv | exact Hc].
Defined.

Section FormOutcomes.
Context {W : Type} (props : PetFormDialog.Props W).
Implicit Types s : Env.t PetFormDialog.State W.

(** A valid record whose submission throws: the message is stored, [onClose]
    is not called. *)
Lemma handleSubmit_thrown s e w' :
  PetFormDialog.newErrors (PetFormDialog.formData (Env.self s)) = ∅ ->
  PetFormDialog.onSubmit props (PetFormDialog.formData (Env.self s))
    (Env.parent s) = (Thrown e, w') ->
  PetFormDialog.handleSubmit props s
  = (Returned tt,
     Env.mk
       (PetFormDialog.mkState (PetFormDialog.formData (Env.self s)) ∅
          (messageOr (lit "An error occurred") e))
       w'
       (Env.calls s ++ [CallOnSubmit (PetFormDialog.formData (Env.self s))])).
Proof.
  intros Hv Hs. rewrite (handleSubmit_valid props s Hv).
  unfold try_catch, bind, callProp, setSelf, modify, validated. simpl.
  rewrite Hs, Hv. reflexivity.
Qed.

(** A valid record whose submission resolves: [onClose] is called next. *)
Lemma handleSubmit_resolved s u w' :
  PetFormDialog.newErrors (PetFormDialog.formData (Env.self s)) = ∅ ->
  PetFormDialog.onSubmit props (PetFormDialog.formData (Env.self s))
    (Env.parent s) = (Returned u, w') ->
  PetFormDialog.handleSubmit props s
  = (Returned tt,
     Env.mk
       (PetFormDialog.mkState (PetFormDialog.formData (Env.self s)) ∅
          (match (PetFormDialog.onClose props w').1 with
           | Returned _ => []
           | Thrown e => messageOr (lit "An error occurred") e
           end))
       (PetFormDialog.onClose props w').2
       (Env.calls s
          ++ [CallOnSubmit (PetFormDialog.formData (Env.self s)); CallOnClose])).
Proof.
  intros Hv Hs. rewrite (handleSubmit_valid props s Hv).
  unfold try_catch, bind, callProp, setSelf, modify, validated. simpl.
  rewrite Hs, Hv. simpl.
  destruct (PetFormDialog.onClose props w') as [[[]|e] w'']; simpl;
    by rewrite <- app_assoc.
Qed.
End FormOutcomes.

(** C6, as stated, fails: a record whose type is a single space is empty
    after trimming, yet validation stores no message for it (the mapping is
    empty, so the record is submitted). *)
Lemma C6_whitespace_type_accepted :
  let formData :=
    PetFormData.mk (lit "Rex") (lit " ") (lit "Lab") 2%Q 20%Q (lit "high")
      (lit "None") [] false in
  trim (PetFormData.type formData) = []
  /\ PetFormDialog.newErrors formData !! "type" = None
  /\ PetFormDialog.newErrors formData = ∅
  /\ ~ (is_Some (PetFormDialog.newErrors formData !! "type")
        <-> trim (PetFormData.type formData) = []).
Proof.
  intros formData.
  assert (Ht : trim (PetFormData.type formData) = []) by reflexivity.
  assert (Hn : PetFormDialog.newErrors formData = ∅) by (by vm_compute).
  split; [exact Ht|]. split; [by rewrite Hn|]. split; [exact Hn|].
  intros [_ H]. specialize (H Ht). rewrite Hn, lookup_empty in H.
  by destruct H.
Qed.

(** C6, amended. The mapping that [validateForm] stores has a message for
    name and for breed exactly when the value is empty after trimming (that
    is, made of white space only); for type and for activity level exactly
    when the value is the empty string, without trimming; for age and for
    weight exactly when the value is not strictly positive. [validateForm]
    answers [true] exactly when the mapping is empty, and [handleSubmit] calls
    [onSubmit] exactly in that case. *)
Theorem C6_validation_rules
    {W : Type} (props : PetFormDialog.Props W)
    (s : Env.t PetFormDialog.State W) :
  let formData := PetFormDialog.formData (Env.self s) in
  let v := PetFormDialog.validateForm s in
  let errors := PetFormDialog.errors (Env.self v.2) in
  (is_Some (errors !! "name") <-> trim (PetFormData.name formData) = [])
  /\ (is_Some (errors !! "name") <-> blankText (PetFormData.name formData))
  /\ (is_Some (errors !! "breed") <-> trim (PetFormData.breed formData) = [])
  /\ (is_Some (errors !! "breed") <-> blankText (PetFormData.breed formData))
  /\ (is_Some (errors !! "type") <-> PetFormData.type formData = [])
  /\ (is_Some (errors !! "activityLevel")
      <-> PetFormData.activityLevel formData = [])
  /\ (is_Some (errors !! "age") <-> ~ (0 < PetFormData.age formData)%Q)
  /\ (is_Some (errors !! "weight") <-> ~ (0 < PetFormData.weight formData)%Q)
  /\ (v.1 = Returned true <-> errors = ∅)
  /\ ((exists rest,
         Env.calls (PetFormDialog.handleSubmit props s).2
         = Env.calls s ++ CallOnSubmit formData :: rest)
      <-> errors = ∅).
Proof.
  intros formData v errors.
  assert (He : errors = PetFormDialog.newErrors formData) by reflexivity.
  assert (Hf : forall f,
    is_Some (errors !! fieldKey f) <-> flagged formData f = true).
  { intros f. rewrite He, newErrors_lookup.
    destruct (flagged formData f); split; intros H;
      [done | by eexists | by destruct H | done]. }
  pose proof (Hf FieldName) as Hname. pose proof (Hf FieldBreed) as Hbreed.
  pose proof (Hf FieldType) as Htype. pose proof (Hf FieldAge) as Hage.
  pose proof (Hf FieldWeight) as Hweight.
  pose proof (Hf FieldActivityLevel) as Hact.
  simpl in Hname, Hbreed, Htype, Hage, Hweight, Hact.
  rewrite falsy_true in Hname, Hbreed, Htype, Hact.
  rewrite le_zero_not_positive in Hage, Hweight.
  split; [exact Hname|]. split; [by rewrite <- trim_nil|].
  split; [exact Hbreed|]. split; [by rewrite <- trim_nil|].
  split; [exact Htype|]. split; [exact Hact|].
  split; [exact Hage|]. split; [exact Hweight|].
  split.
  - clear. subst errors v. rewrite validateForm_run. simpl.
    rewrite <- newErrors_size. split; [by inversion 1 | by intros ->].
  - rewrite He. split.
    + intros [rest Hc].
      destruct (decide (PetFormDialog.newErrors formData = ∅)) as [|Hne];
        [done|].
      rewrite (handleSubmit_invalid props s Hne) in Hc. simpl in Hc.
      rewrite <- (app_nil_r (Env.calls s)) in Hc at 1.
      apply app_inv_head in Hc. discriminate.
    + intros Hv.
      destruct (PetFormDialog.onSubmit props formData (Env.parent s))
        as [[u|e] w'] eqn:Hs.
      * rewrite (handleSubmit_resolved props s u w' Hv Hs). by eexists.
      * rewrite (handleSubmit_thrown props s e w' Hv Hs). by eexists.
Qed.

(** C7. For a record that passes validation, [handleSubmit] clears the
    submit error and calls [onSubmit]. When [onSubmit] resolves, [onClose] is
    called next and the submit error stays cleared (provided [onClose] itself
    returns). When [onSubmit] throws, the submit error becomes the thrown
    error's message (a fixed text for a thrown value that is not an [Error]),
    [onClose] is not called, and [handleSubmit] itself returns normally. *)
Theorem C7_submit_outcome
    {W : Type} (props : PetFormDialog.Props W)
    (s : Env.t PetFormDialog.State W) :
  let formData := PetFormDialog.formData (Env.self s) in
  PetFormDialog.newErrors formData = ∅ ->
  let h := PetFormDialog.handleSubmit props s in
  h.1 = Returned tt
  /\ match PetFormDialog.onSubmit props formData (Env.parent s) with
     | (Returned _, w') =>
         Env.calls h.2 = Env.calls s ++ [CallOnSubmit formData; CallOnClose]
         /\ Env.parent h.2 = (PetFormDialog.onClose props w').2
         /\ match (PetFormDialog.onClose props w').1 with
            | Returned _ => PetFormDialog.submitError (Env.self h.2) = []
            | Thrown e =>
                PetFormDialog.submitError (Env.self h.2)
                = messageOr (lit "An error occurred") e
            end
     | (Thrown e, w') =>
         PetFormDialog.submitError (Env.self h.2)
         = match e with
           | ErrorObject message => message
           | OtherValue _ => lit "An error occurred"
           end
         /\ Env.calls h.2 = Env.calls s ++ [CallOnSubmit formData]
         /\ Env.parent h.2 = w'
     end.
Proof.
  intros formData Hv h. subst h formData.
  destruct (PetFormDialog.onSubmit props _ (Env.parent s)) as [[u|e] w'] eqn:Hs.
  - rewrite (handleSubmit_resolved props s u w' Hv Hs). simpl.
    split; [reflexivity|]. split; [reflexivity|]. split; [reflexivity|].
    by destruct (PetFormDialog.onClose props w').1.
  - rewrite (handleSubmit_thrown props s e w' Hv Hs). simpl.
    split; [reflexivity|]. split; [by destruct e|]. by split.
Qed.

(** Two runs of the form on a valid record, over a parent that only knows
    whether the form is open: a submission that throws (the message is kept,
    the form stays open) and one that resolves (the stale message is cleared,
    the form is closed). *)
Lemma C7_submit_outcome_witness :
  let formData :=
    PetFormData.mk (lit "Rex") (lit "dog") (lit "Lab") 2%Q 20%Q (lit "high")
      (lit "None") [] false in
  let s : Env.t PetFormDialog.State bool :=
    Env.mk (PetFormDialog.mkState formData ∅ (lit "stale")) true [] in
  let close : M bool unit := modify (fun _ => false) in
  let failing :=
    PetFormDialog.mkProps true close
      (fun _ => throw (ErrorObject (lit "Network Error"))) None false in
  let saving := PetFormDialog.mkProps true close (fun _ => ret tt) None false in
  PetFormDialog.newErrors formData = ∅
  /\ (PetFormDialog.submitError
        (Env.self (PetFormDialog.handleSubmit failing s).2)
      = lit "Network Error"
      /\ Env.calls (PetFormDialog.handleSubmit failing s).2
         = [CallOnSubmit formData]
      /\ Env.parent (PetFormDialog.handleSubmit failing s).2 = true)
  /\ (PetFormDialog.submitError
        (Env.self (PetFormDialog.handleSubmit saving s).2) = []
      /\ Env.calls (PetFormDialog.handleSubmit saving s).2
         = [CallOnSubmit formData; CallOnClose]
      /\ Env.parent (PetFormDialog.handleSubmit saving s).2 = false).
Proof.
  intros formData s close failing saving.
  assert (Hv : PetFormDialog.newErrors formData = ∅) by (by vm_compute).
  split; [exact Hv|]. split.
  - destruct (C7_submit_outcome failing s Hv) as (_ & H).
    simpl in H. destruct H as (H1 & H2 & H3). by repeat split.
  - destruct (C7_submit_outcome saving s Hv) as (_ & H).
    simpl in H. destruct H as (H1 & H2 & H3). by repeat split.
Defined.

(** ** Delete confirmation *)

(** C8, as stated, fails: on the page with Buddy selected for deletion and an
    API client whose delete request rejects, confirming makes the page's
    [handleDeleteConfirm] throw, and the dialog's [handleConfirm] catches the
    error, logs it and returns normally. The error does not reach the caller
    of the dialog. *)
Lemma C8_error_not_resignalled :
  let e := ErrorObject (lit "Network Error") in
  let api :=
    apiService.mk (Returned MyPetsPage.mockPets) (fun _ => Thrown e)
      (fun _ _ => Thrown e) (fun _ => Thrown e) in
  let page :=
    MyPetsPage.mkState MyPetsPage.mockPets false None false true None
      (head MyPetsPage.mockPets) false false
      (Snackbar.mk false [] Severity.success) in
  let props := MyPetsPage.deleteDialogProps api page in
  let s := Env.mk tt (MyPetsPage.mkWorld page []) [] in
  let r := DeleteConfirmDialog.dispatch props DeleteConfirmDialog.ClickConfirm s in
  (DeleteConfirmDialog.onConfirm props (Env.parent s)).1 = Thrown e
  /\ r.1 = Returned tt
  /\ r.1 <> Thrown e
  /\ Env.calls r.2 = [CallOnConfirm; ConsoleError "Delete failed:" e].
Proof.
  intros e api page props s r.
  split; [reflexivity|]. split; [reflexivity|].
  split; [discriminate | reflexivity].
Qed.

(** C8, amended. The dialog calls [onConfirm] only when the user clicks the
    confirm button, and then exactly when it has a pet and is not loading;
    the cancel button and a dismissal never reach it. On confirmation it
    calls [onClose] only when [onConfirm] resolves. When [onConfirm] throws,
    [onClose] is not called, so the dialog stays open for a retry, and the
    error is not passed on: [handleConfirm] logs it to the console and returns
    normally. *)
Theorem C8_delete_confirmation
    {W : Type} (props : DeleteConfirmDialog.Props W) (s : Env.t unit W) :
  (forall a, exists new,
      Env.calls (DeleteConfirmDialog.dispatch props a s).2 = Env.calls s ++ new
      /\ (CallOnConfirm ∈ new <->
          a = DeleteConfirmDialog.ClickConfirm
          /\ DeleteConfirmDialog.loading props = false
          /\ is_Some (DeleteConfirmDialog.pet props)))
  /\ let h := DeleteConfirmDialog.handleConfirm props s in
     h.1 = Returned tt
     /\ match DeleteConfirmDialog.onConfirm props (Env.parent s) with
        | (Returned _, w') =>
            Env.parent h.2 = (DeleteConfirmDialog.onClose props w').2
            /\ Env.calls h.2
               = Env.calls s ++ [CallOnConfirm; CallOnClose]
                   ++ match (DeleteConfirmDialog.onClose props w').1 with
                      | Returned _ => []
                      | Thrown e => [ConsoleError "Delete failed:" e]
                      end
        | (Thrown e, w') =>
            Env.parent h.2 = w'
            /\ Env.calls h.2
               = Env.calls s ++ [CallOnConfirm; ConsoleError "Delete failed:" e]
        end.
Proof.
  split.
  - intros a. unfold DeleteConfirmDialog.dispatch.
    destruct (DeleteConfirmDialog.pet props) as [p|] eqn:Hp.
    2:{ exists []. simpl. rewrite app_nil_r. split; [done|].
        split; [by intros ?%elem_of_nil | by intros (_ & _ & [? ?])]. }
    destruct a.
    + exists [CallOnClose]. unfold callProp.
      destruct (DeleteConfirmDialog.onClose props _); simpl.
      split; [done|]. rewrite list_elem_of_singleton.
      split; [discriminate | by intros [? _]].
    + destruct (DeleteConfirmDialog.loading props) eqn:Hl.
      { exists []. simpl. rewrite app_nil_r. split; [done|].
        split; [by intros ?%elem_of_nil | by intros (_ & ? & _)]. }
      unfold DeleteConfirmDialog.handleConfirm, try_catch, bind, callProp,
        dialogConsoleError, modify. simpl.
      destruct (DeleteConfirmDialog.onConfirm props _) as [[u|e] w']; simpl.
      * destruct (DeleteConfirmDialog.onClose props w') as [[u'|e'] w''];
          simpl; rewrite <- ?app_assoc; eexists; (split; [reflexivity|]);
          (split; [by intros _ | intros _; apply list_elem_of_here]).
      * rewrite <- ?app_assoc. eexists. split; [reflexivity|].
        split; [by intros _ | intros _; apply list_elem_of_here].
    + exists [CallOnClose]. unfold callProp.
      destruct (DeleteConfirmDialog.onClose props _); simpl.
      split; [done|]. rewrite list_elem_of_singleton.
      split; [discriminate | by intros [? _]].
  - unfold DeleteConfirmDialog.handleConfirm, try_catch, bind, callProp,
      dialogConsoleError, modify. simpl.
    destruct (DeleteConfirmDialog.onConfirm props _) as [[u|e] w']; simpl.
    + destruct (DeleteConfirmDialog.onClose props w') as [[[]|e'] w''];
        simpl; rewrite <- ?app_assoc; by repeat split.
    + rewrite <- ?app_assoc. by repeat split.
Qed.

(** ** The page: failures *)

(** Unfolds a handler of the page down to the state it returns. *)
Ltac run_page :=
  unfold MyPetsPage.fetchPets, MyPetsPage.handleFormSubmit,
    MyPetsPage.handleDeleteConfirm, try_finally, try_catch, bind, get, throw,
    ret, MyPetsPage.request, MyPetsPage.recordCall, MyPetsPage.setPets,
    MyPetsPage.setSnackbar, MyPetsPage.setLoading, MyPetsPage.setError,
    MyPetsPage.setFormLoading, MyPetsPage.setDeleteLoading, MyPetsPage.onView,
    modify;
  simpl.

(** C2. When the API call of a create, an update or a delete throws, the
    handler leaves the pets list exactly as it was, opens the notification
    with a non-empty message of severity error, and throws the same error to
    its caller. *)
Theorem C2_failure_leaves_list
    (api : apiService.t) (op : Operation) (e : thrown) (w : MyPetsPage.World) :
  selected op (MyPetsPage.view w) ->
  rejects api op e ->
  let r := perform api op w in
  r.1 = Thrown e
  /\ MyPetsPage.pets (MyPetsPage.view r.2) = MyPetsPage.pets (MyPetsPage.view w)
  /\ Snackbar.message (MyPetsPage.snackbar (MyPetsPage.view r.2)) <> []
  /\ Snackbar.open (MyPetsPage.snackbar (MyPetsPage.view r.2)) = true
  /\ Snackbar.severity (MyPetsPage.snackbar (MyPetsPage.view r.2))
     = Severity.error.
Proof.
  destruct w as [page calls]. destruct op as [fd | ep fd | dp];
    simpl; intros Hsel Hrej; run_page; rewrite Hsel; simpl; rewrite Hrej;
    simpl; (repeat split; [by apply lit_app_nonempty]).
Qed.

Lemma C2_failure_leaves_list_witness :
  let e := ErrorObject (lit "Network Error") in
  let api :=
    apiService.mk (Returned MyPetsPage.mockPets) (fun _ => Thrown e)
      (fun _ _ => Thrown e) (fun _ => Thrown e) in
  let formData :=
    PetFormData.mk (lit "Rex") (lit "dog") (lit "Lab") 2%Q 20%Q (lit "high")
      (lit "None") [] false in
  let whiskers :=
    Pet.mk (lit "2") (lit "Whiskers") (lit "Cat") (lit "Persian") 2%Q 4%Q
      (lit "Low") (Some (lit "Allergies")) (Some (lit "/pets/cat1.jpg")) true
      (Some needs_attention) in
  let adding :=
    MyPetsPage.mkWorld
      (MyPetsPage.mkState MyPetsPage.mockPets false None true false None None
         false false (Snackbar.mk false [] Severity.success)) [] in
  let deleting :=
    MyPetsPage.mkWorld
      (MyPetsPage.mkState MyPetsPage.mockPets false None false true None
         (Some whiskers) false false (Snackbar.mk false [] Severity.success))
      [] in
  ((MyPetsPage.handleFormSubmit api formData adding).1 = Thrown e
   /\ MyPetsPage.pets
        (MyPetsPage.view (MyPetsPage.handleFormSubmit api formData adding).2)
      = MyPetsPage.mockPets)
  /\ ((MyPetsPage.handleDeleteConfirm api deleting).1 = Thrown e
      /\ MyPetsPage.pets
           (MyPetsPage.view (MyPetsPage.handleDeleteConfirm api deleting).2)
         = MyPetsPage.mockPets).
Proof.
  intros e api formData whiskers adding deleting. split.
  - destruct (C2_failure_leaves_list api (Create formData) e adding
                eq_refl eq_refl) as (H1 & H2 & _).
    split; [exact H1 | exact H2].
  - destruct (C2_failure_leaves_list api (Delete whiskers) e deleting
                eq_refl eq_refl) as (H1 & H2 & _).
    split; [exact H1 | exact H2].
Defined.

(** C9. When the request of [fetchPets] fails: under
    [NODE_ENV === 'development'] the list becomes the three demo records and
    an informational notification is opened; under any other configuration the
    list stays as it was (no demo data) and the error value of the page is set
    to a message. In both cases the loading flag ends [false]. *)
Theorem C9_fetch_failure
    (api : apiService.t) (NODE_ENV : option jsstring) (e : thrown)
    (w : MyPetsPage.World) :
  apiService.getPets api = Thrown e ->
  let r := MyPetsPage.fetchPets api NODE_ENV w in
  let page := MyPetsPage.view r.2 in
  r.1 = Returned tt
  /\ MyPetsPage.loading page = false
  /\ (NODE_ENV = Some (lit "development") ->
      MyPetsPage.pets page = MyPetsPage.mockPets
      /\ length (MyPetsPage.pets page) = 3%nat
      /\ MyPetsPage.snackbar page
         = Snackbar.mk true (lit "Using demo data - API not connected")
             Severity.info
      /\ MyPetsPage.error page = None)
  /\ (NODE_ENV <> Some (lit "development") ->
      MyPetsPage.pets page = MyPetsPage.pets (MyPetsPage.view w)
      /\ MyPetsPage.error page
         = Some (lit "Unable to load your pets: "
                   ++ messageOr (lit "Failed to load pets") e)
      /\ MyPetsPage.error page <> Some []
      /\ MyPetsPage.snackbar page = MyPetsPage.snackbar (MyPetsPage.view w)).
Proof.
  intros Hget. destruct w as [page0 calls]. run_page. rewrite Hget. simpl.
  destruct (bool_decide (NODE_ENV = Some (lit "development"))) eqn:Henv; simpl.
  - apply bool_decide_eq_true in Henv.
    split; [done|]. split; [done|]. split; [done|]. by intros Hne.
  - apply bool_decide_eq_false in Henv.
    split; [done|]. split; [done|]. split; [done|]. intros _.
    split; [done|]. split; [done|]. split; [|done].
    intros H. injection H as H. revert H. by apply lit_app_nonempty.
Qed.

Lemma C9_fetch_failure_witness :
  let e := ErrorObject (lit "Network Error") in
  let api :=
    apiService.mk (Thrown e) (fun _ => Thrown e) (fun _ _ => Thrown e)
      (fun _ => Thrown e) in
  let w := MyPetsPage.mkWorld MyPetsPage.initial [] in
  MyPetsPage.pets
    (MyPetsPage.view
       (MyPetsPage.fetchPets api (Some (lit "development")) w).2)
  = MyPetsPage.mockPets
  /\ MyPetsPage.pets
       (MyPetsPage.view
          (MyPetsPage.fetchPets api (Some (lit "production")) w).2) = []
  /\ MyPetsPage.error
       (MyPetsPage.view
          (MyPetsPage.fetchPets api (Some (lit "production")) w).2)
     = Some (lit "Unable to load your pets: Network Error").
Proof.
  intros e api w.
  destruct (C9_fetch_failure api (Some (lit "development")) e w eq_refl)
    as (_ & _ & Hdev & _).
  destruct (C9_fetch_failure api (Some (lit "production")) e w eq_refl)
    as (_ & _ & _ & Hprod).
  destruct (Hdev eq_refl) as (H1 & _).
  destruct Hprod as (H2 & H3 & _); [discriminate|].
  split; [exact H1|]. split; [exact H2 | exact H3].
Defined.

(** C10. With no pet selected for deletion, [handleDeleteConfirm] returns at
    once: no request is made and the whole state of the page (the list, the
    loading flags, the notification, everything else) is unchanged. *)
Theorem C10_delete_without_target
    (api : apiService.t) (w : MyPetsPage.World) :
  MyPetsPage.deletingPet (MyPetsPage.view w) = None ->
  MyPetsPage.handleDeleteConfirm api w = (Returned tt, w).
Proof. intros H. run_page. by rewrite H. Qed.

Lemma C10_delete_without_target_witness :
  let api :=
    apiService.mk (Returned []) (fun _ => Thrown (OtherValue []))
      (fun _ _ => Thrown (OtherValue [])) (fun _ => Returned tt) in
  let w := MyPetsPage.mkWorld MyPetsPage.initial [] in
  MyPetsPage.handleDeleteConfirm api w = (Returned tt, w).
Proof. intros api w. by apply (C10_delete_without_target api w). Defined.

(** ** The page: successful operations *)

(** A successful create adds exactly one record, at the end of the list. *)
Lemma create_appends_one
    (api : apiService.t) (formData : PetFormData.t) (createdPet : Pet.t)
    (w : MyPetsPage.World) :
  MyPetsPage.editingPet (MyPetsPage.view w) = None ->
  apiService.createPet api formData = Returned createdPet ->
  let r := MyPetsPage.handleFormSubmit api formData w in
  r.1 = Returned tt
  /\ MyPetsPage.pets (MyPetsPage.view r.2)
     = MyPetsPage.pets (MyPetsPage.view w)
         ++ [MyPetsPage.newPet createdPet formData].
Proof.
  destruct w as [page calls]. simpl. intros Hsel Hok. run_page.
  rewrite Hsel. simpl. rewrite Hok. simpl. by split.
Qed.

(** The health status of the added record follows the health issues of the
    record that the API returned, not those that the added record ends up
    with. *)
Lemma newPet_healthStatus (createdPet : Pet.t) (formData : PetFormData.t) :
  Pet.healthStatus (MyPetsPage.newPet createdPet formData) = Some healthy
  <-> Pet.healthIssues createdPet = None
      \/ Pet.healthIssues createdPet = Some []
      \/ Pet.healthIssues createdPet = Some (lit "None").
Proof.
  unfold MyPetsPage.newPet. simpl.
  destruct (Pet.healthIssues createdPet) as [h|]; simpl.
  - destruct (decide (h = lit "None")) as [->|Hn].
    + rewrite bool_decide_eq_true_2 by done. simpl. split; auto.
    + rewrite (bool_decide_eq_false_2 (Some h = Some (lit "None")))
        by congruence.
      destruct (decide (h = [])) as [->|He].
      * rewrite bool_decide_eq_true_2 by done. simpl. split; auto.
      * rewrite (bool_decide_eq_false_2 (Some h = Some [])) by congruence.
        unfold falsy. rewrite bool_decide_eq_false_2 by done. simpl.
        split; [done|]. intros [H|[H|H]]; congruence.
  - split; [by left | done].
Qed.

(** C3 fails on the code. The form holds the health issues "Allergies"; the
    API resolves the create with a record whose health issues are empty. The
    record that [handleFormSubmit] appends then has the health issues
    "Allergies" (the fall-back to the form's value) and the health status
    healthy (derived from the empty value that the API returned). *)
Theorem C3_created_record_health_status :
  let formData :=
    PetFormData.mk (lit "Rex") (lit "dog") (lit "Lab") 2%Q 20%Q (lit "high")
      (lit "Allergies") [] false in
  let createdPet :=
    Pet.mk (lit "4") (lit "Rex") (lit "dog") (lit "Lab") 2%Q 20%Q (lit "high")
      (Some []) None false None in
  let api :=
    apiService.mk (Returned MyPetsPage.mockPets) (fun _ => Returned createdPet)
      (fun _ _ => Returned createdPet) (fun _ => Returned tt) in
  let page :=
    MyPetsPage.mkState MyPetsPage.mockPets false None true false None None
      false false (Snackbar.mk false [] Severity.success) in
  let r := MyPetsPage.handleFormSubmit api formData (MyPetsPage.mkWorld page []) in
  r.1 = Returned tt
  /\ exists added,
       MyPetsPage.pets (MyPetsPage.view r.2) = MyPetsPage.mockPets ++ [added]
       /\ Pet.healthIssues added = Some (lit "Allergies")
       /\ Pet.healthIssues added <> Some []
       /\ Pet.healthIssues added <> Some (lit "None")
       /\ Pet.healthStatus added = Some healthy.
Proof.
  intros formData createdPet api page r.
  split; [reflexivity|].
  exists (MyPetsPage.newPet createdPet formData).
  split; [reflexivity|]. split; [by vm_compute|].
  split; [by vm_compute|]. split; [by vm_compute|]. by vm_compute.
Qed.

(** C4. After a successful update the list has the same length. Every
    position that held a record with the edited pet's identifier now holds
    the replacement: a record with that same identifier, with the nine fields
    of the submitted form (name, type, breed, age, weight, activity level,
    health issues, image reference, desexed flag), and with the health status
    of the API's answer when it has one and of the pet being edited
    otherwise. Every position that held a record with another identifier
    holds that same record. *)
Theorem C4_update_replaces_by_id
    (api : apiService.t) (editingPet updatedPet : Pet.t)
    (formData : PetFormData.t) (w : MyPetsPage.World) :
  MyPetsPage.editingPet (MyPetsPage.view w) = Some editingPet ->
  apiService.updatePet api (Pet.id editingPet) formData = Returned updatedPet ->
  let r := MyPetsPage.handleFormSubmit api formData w in
  let old := MyPetsPage.pets (MyPetsPage.view w) in
  let new := MyPetsPage.pets (MyPetsPage.view r.2) in
  r.1 = Returned tt
  /\ length new = length old
  /\ forall (i : nat) (pet : Pet.t), old !! i = Some pet ->
       (Pet.id pet = Pet.id editingPet ->
        exists merged,
          new !! i = Some merged
          /\ merged = MyPetsPage.completeUpdatedPet editingPet updatedPet formData
          /\ Pet.id merged = Pet.id pet
          /\ merged
             = Pet.mk (Pet.id pet)
                 (PetFormData.name formData) (PetFormData.type formData)
                 (PetFormData.breed formData) (PetFormData.age formData)
                 (PetFormData.weight formData)
                 (PetFormData.activityLevel formData)
                 (Some (PetFormData.healthIssues formData))
                 (Some (PetFormData.imageUrl formData))
                 (PetFormData.isDesexed formData)
                 (match Pet.healthStatus updatedPet with
                  | Some status => Some status
                  | None => Pet.healthStatus editingPet
                  end))
       /\ (Pet.id pet <> Pet.id editingPet -> new !! i = Some pet).
Proof.
  destruct w as [page calls]. simpl. intros Hsel Hok. run_page.
  rewrite Hsel. simpl. rewrite Hok. simpl.
  split; [reflexivity|]. split; [apply length_fmap|].
  intros i pet Hi. rewrite list_lookup_fmap, Hi. simpl. split.
  - intros Hid. rewrite bool_decide_eq_true_2 by done.
    eexists. split; [reflexivity|]. split; [reflexivity|].
    split; [by simpl|]. unfold MyPetsPage.completeUpdatedPet.
    by rewrite Hid.
  - intros Hid. by rewrite bool_decide_eq_false_2.
Qed.

(** Editing Whiskers (the second demo record): the second position holds the
    submitted data under the old identifier and with the old health status,
    the first position still holds Buddy. *)
Lemma C4_update_replaces_by_id_witness :
  let formData :=
    PetFormData.mk (lit "Whiskers") (lit "cat") (lit "Persian") 3%Q 5%Q
      (lit "low") (lit "None") (lit "/pets/cat1.jpg") true in
  let editingPet :=
    Pet.mk (lit "2") (lit "Whiskers") (lit "Cat") (lit "Persian") 2%Q 4%Q
      (lit "Low") (Some (lit "Allergies")) (Some (lit "/pets/cat1.jpg")) true
      (Some needs_attention) in
  let updatedPet :=
    Pet.mk (lit "2") (lit "Whiskers") (lit "cat") (lit "Persian") 3%Q 5%Q
      (lit "low") None None true None in
  let api :=
    apiService.mk (Returned MyPetsPage.mockPets) (fun _ => Returned updatedPet)
      (fun _ _ => Returned updatedPet) (fun _ => Returned tt) in
  let page :=
    MyPetsPage.mkState MyPetsPage.mockPets false None true false
      (Some editingPet) None false false
      (Snackbar.mk false [] Severity.success) in
  let r := MyPetsPage.handleFormSubmit api formData (MyPetsPage.mkWorld page []) in
  length (MyPetsPage.pets (MyPetsPage.view r.2)) = 3%nat
  /\ MyPetsPage.pets (MyPetsPage.view r.2) !! 0%nat
     = MyPetsPage.mockPets !! 0%nat
  /\ MyPetsPage.pets (MyPetsPage.view r.2) !! 1%nat
     = Some
         (Pet.mk (lit "2") (lit "Whiskers") (lit "cat") (lit "Persian") 3%Q 5%Q
            (lit "low") (Some (lit "None")) (Some (lit "/pets/cat1.jpg")) true
            (Some needs_attention))
  /\ MyPetsPage.pets (MyPetsPage.view r.2) !! 1%nat
     <> MyPetsPage.mockPets !! 1%nat.
Proof.
  intros formData editingPet updatedPet api page r.
  destruct (C4_update_replaces_by_id api editingPet updatedPet formData
              (MyPetsPage.mkWorld page []) eq_refl eq_refl)
    as (_ & Hlen & Hat).
  split; [exact Hlen|]. split.
  - destruct (MyPetsPage.mockPets !! 0%nat) as [buddy|] eqn:Hb; [|done].
    destruct (Hat 0%nat buddy Hb) as [_ Hother].
    apply Hother. vm_compute in Hb. injection Hb as <-. by vm_compute.
  - destruct (Hat 1%nat editingPet eq_refl) as [Hsame _].
    destruct (Hsame eq_refl) as (merged & Hm & _ & _ & Hfields).
    fold r in Hm. rewrite Hm, Hfields. split; [reflexivity|].
    intros H. vm_compute in H. discriminate H.
Defined.

(** Removing by an identifier that no record carries removes nothing. *)
Lemma filter_absent_id (l : list Pet.t) (i : jsstring) :
  i ∉ (Pet.id <$> l) -> filter (fun pet => Pet.id pet <> i) l = l.
Proof.
  induction l as [|p l IH]; [done|]. simpl. intros Hni.
  apply not_elem_of_cons in Hni as [Hp Hl].
  rewrite filter_cons_True by congruence. f_equal. by apply IH.
Qed.

(** With unique identifiers, removing by an identifier that occurs removes
    exactly one record. *)
Lemma filter_unique_id (l : list Pet.t) (i : jsstring) :
  NoDup (Pet.id <$> l) -> i ∈ (Pet.id <$> l) ->
  length l = S (length (filter (fun pet => Pet.id pet <> i) l)).
Proof.
  induction l as [|p l IH]; simpl; intros Hnd Hin.
  - by apply elem_of_nil in Hin.
  - apply NoDup_cons in Hnd as [Hp Hnd].
    destruct (decide (Pet.id p = i)) as [<-|Hne].
    + rewrite filter_cons_False by (intros H; by apply H).
      by rewrite filter_absent_id.
    + rewrite filter_cons_True by done. simpl. f_equal.
      apply IH; [done|]. apply elem_of_cons in Hin as [Hin|Hin]; [|done].
      congruence.
Qed.

(** C5. After a successful delete the list is the previous list without the
    records that carry the target's identifier: nothing is added, reordered
    or altered (the result is a sublist), a record is in the result exactly
    when it was in the list and has another identifier, the records with
    another identifier are all kept, in their order, and, identifiers being
    unique, exactly one record is gone. *)
Theorem C5_delete_removes_target
    (api : apiService.t) (deletingPet : Pet.t) (w : MyPetsPage.World) :
  MyPetsPage.deletingPet (MyPetsPage.view w) = Some deletingPet ->
  apiService.deletePet api (Pet.id deletingPet) = Returned tt ->
  let r := MyPetsPage.handleDeleteConfirm api w in
  let old := MyPetsPage.pets (MyPetsPage.view w) in
  let new := MyPetsPage.pets (MyPetsPage.view r.2) in
  r.1 = Returned tt
  /\ new `sublist_of` old
  /\ (forall pet, pet ∈ new <-> pet ∈ old /\ Pet.id pet <> Pet.id deletingPet)
  /\ new = filter (fun pet => Pet.id pet <> Pet.id deletingPet) old
  /\ (NoDup (Pet.id <$> old) -> Pet.id deletingPet ∈ (Pet.id <$> old) ->
      length old = S (length new)).
Proof.
  destruct w as [page calls]. simpl. intros Hsel Hok. run_page.
  rewrite Hsel. simpl. rewrite Hok. simpl.
  split; [reflexivity|]. split; [apply sublist_filter|].
  split; [|split].
  - intros pet. rewrite list_elem_of_filter. tauto.
  - reflexivity.
  - apply filter_unique_id.
Qed.

Lemma C5_delete_removes_target_witness :
  let api :=
    apiService.mk (Returned MyPetsPage.mockPets)
      (fun _ => Thrown (OtherValue [])) (fun _ _ => Thrown (OtherValue []))
      (fun _ => Returned tt) in
  let whiskers :=
    Pet.mk (lit "2") (lit "Whiskers") (lit "Cat") (lit "Persian") 2%Q 4%Q
      (lit "Low") (Some (lit "Allergies")) (Some (lit "/pets/cat1.jpg")) true
      (Some needs_attention) in
  let page :=
    MyPetsPage.mkState MyPetsPage.mockPets false None false true None
      (Some whiskers) false false (Snackbar.mk false [] Severity.success) in
  let r := MyPetsPage.handleDeleteConfirm api (MyPetsPage.mkWorld page []) in
  r.1 = Returned tt
  /\ length (MyPetsPage.pets (MyPetsPage.view r.2)) = 2%nat.
Proof.
  intros api whiskers page r.
  destruct (C5_delete_removes_target api whiskers (MyPetsPage.mkWorld page [])
              eq_refl eq_refl) as (Hr & _ & _ & _ & Hlen).
  split; [exact Hr|].
  assert (Hn : length MyPetsPage.mockPets
               = S (length (MyPetsPage.pets (MyPetsPage.view r.2)))).
  { apply Hlen.
    - apply (bool_decide_unpack _). by vm_compute.
    - apply (bool_decide_unpack _). by vm_compute. }
  change (length MyPetsPage.mockPets) with 3%nat in Hn. lia.
Defined.

(** ** The form inside the page *)

(** The form rendered by the page, submitting a valid new record while the
    API rejects the create: the page notifies and re-throws, so the form keeps
    the message, does not call [onClose], and the page keeps the dialog open
    and its list as it was. *)
Lemma form_stays_open_on_failed_create
    (api : apiService.t) (page : MyPetsPage.State) (calls : list Event)
    (s : PetFormDialog.State) (log : list Event) (message : jsstring) :
  let formData := PetFormDialog.formData s in
  PetFormDialog.newErrors formData = ∅ ->
  MyPetsPage.editingPet page = None ->
  apiService.createPet api formData = Thrown (ErrorObject message) ->
  let r :=
    PetFormDialog.handleSubmit (MyPetsPage.formDialogProps api page)
      (Env.mk s (MyPetsPage.mkWorld page calls) log) in
  r.1 = Returned tt
  /\ PetFormDialog.submitError (Env.self r.2) = message
  /\ Env.calls r.2 = log ++ [CallOnSubmit formData]
  /\ MyPetsPage.pets (MyPetsPage.view (Env.parent r.2)) = MyPetsPage.pets page
  /\ MyPetsPage.formDialogOpen (MyPetsPage.view (Env.parent r.2))
     = MyPetsPage.formDialogOpen page
  /\ MyPetsPage.calls (Env.parent r.2)
     = calls ++ [ApiCreatePet formData;
                 ConsoleError "API operation failed:" (ErrorObject message)].
Proof.
  intros formData Hvalid Hsel Hrej r. subst r.
  set (w' :=
    MyPetsPage.mkWorld
      (MyPetsPage.mkState (MyPetsPage.pets page) (MyPetsPage.loading page)
         (MyPetsPage.error page) (MyPetsPage.formDialogOpen page)
         (MyPetsPage.deleteDialogOpen page) (MyPetsPage.editingPet page)
         (MyPetsPage.deletingPet page) false (MyPetsPage.deleteLoading page)
         (Snackbar.mk true
            (lit "Failed to " ++ lit "create" ++ lit " pet: " ++ message)
            Severity.error))
      (calls ++ [ApiCreatePet formData;
                 ConsoleError "API operation failed:" (ErrorObject message)])).
  assert (Hthrown :
    MyPetsPage.handleFormSubmit api formData (MyPetsPage.mkWorld page calls)
    = (Thrown (ErrorObject message), w')).
  { subst w'. run_page. rewrite Hsel. simpl. rewrite Hrej. simpl.
    by rewrite <- app_assoc. }
  rewrite (handleSubmit_thrown (MyPetsPage.formDialogProps api page)
             (Env.mk s (MyPetsPage.mkWorld page calls) log)
             (ErrorObject message) w' Hvalid Hthrown).
  simpl. by repeat split.
Qed.

(** ** Loading the list *)

(** Unfolds the handlers of the page, the openers and closers included. *)
Ltac run_handlers :=
  unfold MyPetsPage.navigate, MyPetsPage.handleAddPet,
    MyPetsPage.handleEditPet, MyPetsPage.handleDeletePet,
    MyPetsPage.handleCreateRecipe, MyPetsPage.handleFormDialogClose,
    MyPetsPage.handleDeleteDialogClose, MyPetsPage.handleSnackbarClose,
    MyPetsPage.setEditingPet, MyPetsPage.setDeletingPet,
    MyPetsPage.setFormDialogOpen, MyPetsPage.setDeleteDialogOpen;
  run_page.

(** The requests among the calls, once the calls are a concrete extension of
    those made before. *)
Ltac count_requests :=
  unfold requests; simpl; rewrite ?List.filter_app; simpl;
  rewrite ?app_nil_r, <- ?app_assoc; simpl.

(** When the request for the list resolves, whatever the page held before
    (an older list, an error) is replaced: the list becomes the fetched
    records, in order, each unchanged except for its health status, which is
    healthy exactly when the record's health issues are "None" or the empty
    string and needs-attention otherwise (also for a record without health
    issues); the error is cleared and the loading flag ends false. *)
Theorem fetch_success_replaces_list
    (api : apiService.t) (NODE_ENV : option jsstring)
    (fetchedPets : list Pet.t) (w : MyPetsPage.World) :
  apiService.getPets api = Returned fetchedPets ->
  let r := MyPetsPage.fetchPets api NODE_ENV w in
  let page := MyPetsPage.view r.2 in
  r.1 = Returned tt
  /\ MyPetsPage.loading page = false
  /\ MyPetsPage.error page = None
  /\ MyPetsPage.snackbar page = MyPetsPage.snackbar (MyPetsPage.view w)
  /\ ids (MyPetsPage.pets page) = ids fetchedPets
  /\ forall (i : nat) (pet : Pet.t), fetchedPets !! i = Some pet ->
       exists shown,
         MyPetsPage.pets page !! i = Some shown
         /\ (forall h, MyPetsPage.withHealthStatus h shown
                       = MyPetsPage.withHealthStatus h pet)
         /\ (Pet.healthStatus shown = Some healthy
             <-> Pet.healthIssues pet = Some (lit "None")
                 \/ Pet.healthIssues pet = Some [])
         /\ (Pet.healthStatus shown = Some needs_attention
             <-> ~ (Pet.healthIssues pet = Some (lit "None")
                    \/ Pet.healthIssues pet = Some [])).
Proof.
  intros Hget. destruct w as [page0 calls]. run_page. rewrite Hget. simpl.
  split; [done|]. split; [done|]. split; [done|]. split; [done|].
  split.
  - unfold ids. rewrite <- list_fmap_compose. by apply list_fmap_ext.
  - intros i pet Hi. rewrite list_lookup_fmap, Hi. simpl.
    eexists. split; [reflexivity|]. split; [done|].
    unfold MyPetsPage.fetchedHealthStatus. simpl.
    destruct (decide (Pet.healthIssues pet = Some (lit "None"))) as [H1|H1];
      [rewrite (bool_decide_eq_true_2 _ H1)
      |rewrite (bool_decide_eq_false_2 _ H1)];
      (destruct (decide (Pet.healthIssues pet = Some [])) as [H2|H2];
       [rewrite (bool_decide_eq_true_2 _ H2)
       |rewrite (bool_decide_eq_false_2 _ H2)]);
      simpl; split; split; intros H; try done; try tauto.
Qed.

Lemma fetch_success_replaces_list_witness :
  let api :=
    apiService.mk
      (Returned
         [Pet.mk (lit "7") (lit "Rex") (lit "dog") (lit "Lab") 2%Q 20%Q
            (lit "high") None None false None])
      (fun _ => Thrown (OtherValue [])) (fun _ _ => Thrown (OtherValue []))
      (fun _ => Returned tt) in
  let w := MyPetsPage.mkWorld MyPetsPage.initial [] in
  (Pet.healthStatus
     <$> MyPetsPage.pets
           (MyPetsPage.view (MyPetsPage.fetchPets api None w).2))
  = [Some needs_attention].
Proof.
  intros api w.
  destruct (fetch_success_replaces_list api None _ w eq_refl)
    as (_ & _ & _ & _ & _ & Hat).
  destruct (Hat 0%nat _ eq_refl) as (shown & Hshown & _ & _ & Hneeds).
  assert (Hs : Pet.healthStatus shown = Some needs_attention).
  { apply Hneeds. simpl. intros [H|H]; discriminate. }
  destruct (MyPetsPage.pets
              (MyPetsPage.view (MyPetsPage.fetchPets api None w).2))
    as [|p [|p' l]] eqn:Hl; try discriminate.
  simpl in Hshown. injection Hshown as ->. simpl. by rewrite Hs.
Defined.

(** [fetchPets] never throws, whatever the API client does and whatever the
    configuration: it sends exactly one request, ends with the loading flag
    false (the spinner is gone), and leaves the dialogs, the selections and
    the two operation flags alone. *)
Theorem fetch_always_returns
    (api : apiService.t) (NODE_ENV : option jsstring) (w : MyPetsPage.World) :
  let r := MyPetsPage.fetchPets api NODE_ENV w in
  let page := MyPetsPage.view r.2 in
  let before := MyPetsPage.view w in
  r.1 = Returned tt
  /\ requests r.2 = requests w ++ [ApiGetPets]
  /\ MyPetsPage.loading page = false
  /\ MyPetsPage.render page <> MyPetsPage.LoadingSpinner
  /\ MyPetsPage.formDialogOpen page = MyPetsPage.formDialogOpen before
  /\ MyPetsPage.deleteDialogOpen page = MyPetsPage.deleteDialogOpen before
  /\ MyPetsPage.editingPet page = MyPetsPage.editingPet before
  /\ MyPetsPage.deletingPet page = MyPetsPage.deletingPet before
  /\ MyPetsPage.formLoading page = MyPetsPage.formLoading before
  /\ MyPetsPage.deleteLoading page = MyPetsPage.deleteLoading before.
Proof.
  destruct w as [page0 calls]. run_page.
  destruct (apiService.getPets api) as [fetched|e]; simpl.
  - split; [done|]. split; [by count_requests|]. split; [done|].
    split; [|done]. unfold MyPetsPage.render. simpl. discriminate.
  - destruct (bool_decide (NODE_ENV = Some (lit "development"))); simpl.
    + split; [done|]. split; [by count_requests|]. split; [done|].
      split; [|done]. unfold MyPetsPage.render. simpl. discriminate.
    + split; [done|]. split; [by count_requests|]. split; [done|].
      split; [|done]. unfold MyPetsPage.render. simpl.
      by destruct (falsy _).
Qed.

(** A fetched record counts as healthy exactly when it has no issues. *)
Lemma isHealthy_fetched (pet : Pet.t) :
  MyPetsPage.isHealthy
    (MyPetsPage.withHealthStatus (MyPetsPage.fetchedHealthStatus pet) pet)
  = noIssues pet.
Proof.
  unfold MyPetsPage.isHealthy, MyPetsPage.fetchedHealthStatus, noIssues.
  simpl. by destruct (bool_decide _ || bool_decide _).
Qed.

Lemma healthy_count_fetched (l : list Pet.t) :
  length
    (List.filter MyPetsPage.isHealthy
       ((fun pet =>
           MyPetsPage.withHealthStatus (MyPetsPage.fetchedHealthStatus pet) pet)
          <$> l))
  = length (List.filter noIssues l).
Proof.
  induction l as [|p l IH]; [done|].
  rewrite fmap_cons. cbn [List.filter]. rewrite isHealthy_fetched.
  destruct (noIssues p); simpl; by rewrite IH.
Qed.

(** What the page shows once [fetchPets] has returned. A resolved request
    gives the dashboard, counting the fetched records and, as healthy, those
    whose health issues are "None" or empty; an empty answer gives the
    empty-state panel. A rejected request gives, under
    [NODE_ENV === 'development'], the dashboard of the three demo records (two
    of them healthy), and otherwise the error panel with the message, which is
    never blank. *)
Theorem screen_after_fetch
    (api : apiService.t) (NODE_ENV : option jsstring) (w : MyPetsPage.World) :
  let page := MyPetsPage.view (MyPetsPage.fetchPets api NODE_ENV w).2 in
  MyPetsPage.render page
  = match apiService.getPets api with
    | Returned fetchedPets =>
        MyPetsPage.Dashboard (length fetchedPets)
          (length (List.filter noIssues fetchedPets))
          (if bool_decide (fetchedPets = []) then None
           else Some (MyPetsPage.pets page))
    | Thrown e =>
        if bool_decide (NODE_ENV = Some (lit "development"))
        then MyPetsPage.Dashboard 3 2 (Some MyPetsPage.mockPets)
        else
          MyPetsPage.ErrorAlert
            (lit "Unable to load your pets: "
               ++ messageOr (lit "Failed to load pets") e)
    end.
Proof.
  destruct w as [page0 calls]. run_page.
  destruct (apiService.getPets api) as [fetched|e]; simpl.
  - unfold MyPetsPage.render, MyPetsPage.dashboard. simpl.
    rewrite length_fmap, healthy_count_fetched. f_equal.
    by destruct fetched.
  - destruct (bool_decide (NODE_ENV = Some (lit "development"))); simpl.
    + reflexivity.
    + unfold MyPetsPage.render. simpl.
      destruct (falsy _) eqn:E; [|done].
      apply falsy_true in E. by apply lit_app_nonempty in E.
Qed.

(** ** The three operations: what they leave alone *)

(** Whether its request resolves or rejects, an operation sends exactly one
    request, the one that belongs to it; it leaves the page's loading flag
    and error, both dialogs' visibility and both selections as they were;
    it ends with its own busy flag false and the other one untouched; and it
    always opens the notification. *)
Theorem operation_frame
    (api : apiService.t) (op : Operation) (w : MyPetsPage.World) :
  selected op (MyPetsPage.view w) ->
  let r := perform api op w in
  let page := MyPetsPage.view r.2 in
  let before := MyPetsPage.view w in
  requests r.2 = requests w ++ [requestOf op]
  /\ MyPetsPage.loading page = MyPetsPage.loading before
  /\ MyPetsPage.error page = MyPetsPage.error before
  /\ MyPetsPage.formDialogOpen page = MyPetsPage.formDialogOpen before
  /\ MyPetsPage.deleteDialogOpen page = MyPetsPage.deleteDialogOpen before
  /\ MyPetsPage.editingPet page = MyPetsPage.editingPet before
  /\ MyPetsPage.deletingPet page = MyPetsPage.deletingPet before
  /\ match op with
     | Delete _ =>
         MyPetsPage.deleteLoading page = false
         /\ MyPetsPage.formLoading page = MyPetsPage.formLoading before
     | _ =>
         MyPetsPage.formLoading page = false
         /\ MyPetsPage.deleteLoading page = MyPetsPage.deleteLoading before
     end
  /\ Snackbar.open (MyPetsPage.snackbar page) = true.
Proof.
  destruct w as [page0 calls]. destruct op as [fd | ep fd | dp]; simpl;
    intros Hsel; run_page; rewrite Hsel; simpl.
  - destruct (apiService.createPet api fd); simpl;
      (split; [by count_requests|]); by rewrite ?Hsel.
  - destruct (apiService.updatePet api (Pet.id ep) fd); simpl;
      (split; [by count_requests|]); by rewrite ?Hsel.
  - destruct (apiService.deletePet api (Pet.id dp)); simpl;
      (split; [by count_requests|]); by rewrite ?Hsel.
Qed.

Lemma operation_frame_witness :
  let api :=
    apiService.mk (Returned []) (fun _ => Thrown (OtherValue []))
      (fun _ _ => Thrown (OtherValue [])) (fun _ => Returned tt) in
  let formData :=
    PetFormData.mk (lit "Rex") (lit "dog") (lit "Lab") 2%Q 20%Q (lit "high")
      (lit "None") [] false in
  let w :=
    MyPetsPage.mkWorld
      (MyPetsPage.mkState MyPetsPage.mockPets false None true false None None
         false false (Snackbar.mk false [] Severity.success)) [ApiGetPets] in
  requests (MyPetsPage.handleFormSubmit api formData w).2
  = [ApiGetPets; ApiCreatePet formData]
  /\ MyPetsPage.formDialogOpen
       (MyPetsPage.view (MyPetsPage.handleFormSubmit api formData w).2) = true.
Proof.
  intros api formData w.
  destruct (operation_frame api (Create formData) w eq_refl)
    as (H1 & _ & _ & H2 & _).
  split; [exact H1 | exact H2].
Defined.

(** ** The three operations: identifiers *)

Lemma update_keeps_ids (l : list Pet.t) (i : jsstring) (merged : Pet.t) :
  Pet.id merged = i ->
  ids ((fun pet => if bool_decide (Pet.id pet = i) then merged else pet) <$> l)
  = ids l.
Proof.
  intros Hm. unfold ids. rewrite <- list_fmap_compose.
  apply list_fmap_ext. intros k pet _. simpl.
  destruct (bool_decide (Pet.id pet = i)) eqn:E; [|done].
  apply bool_decide_eq_true in E. congruence.
Qed.

Lemma update_absent_id (l : list Pet.t) (i : jsstring) (merged : Pet.t) :
  i ∉ ids l ->
  (fun pet => if bool_decide (Pet.id pet = i) then merged else pet) <$> l = l.
Proof.
  intros Hni. rewrite <- (list_fmap_id l) at 2.
  apply list_fmap_ext. intros k pet Hk. simpl.
  rewrite bool_decide_eq_false_2; [done|].
  intros <-. apply Hni. unfold ids. apply list_elem_of_fmap_2.
  by eapply list_elem_of_lookup_2.
Qed.

Lemma delete_ids_sublist (l : list Pet.t) (i : jsstring) :
  ids (filter (fun pet => Pet.id pet <> i) l) `sublist_of` ids l.
Proof. unfold ids. apply fmap_sublist, sublist_filter. Qed.

(** A successful update whose pet is no longer in the list (no record carries
    its identifier) changes no record and adds none, and still announces
    success. *)
Theorem update_of_absent_record
    (api : apiService.t) (editingPet updatedPet : Pet.t)
    (formData : PetFormData.t) (w : MyPetsPage.World) :
  MyPetsPage.editingPet (MyPetsPage.view w) = Some editingPet ->
  apiService.updatePet api (Pet.id editingPet) formData = Returned updatedPet ->
  Pet.id editingPet ∉ ids (MyPetsPage.pets (MyPetsPage.view w)) ->
  let r := MyPetsPage.handleFormSubmit api formData w in
  r.1 = Returned tt
  /\ MyPetsPage.pets (MyPetsPage.view r.2) = MyPetsPage.pets (MyPetsPage.view w)
  /\ MyPetsPage.snackbar (MyPetsPage.view r.2)
     = Snackbar.mk true (lit "Pet updated successfully! " ++ [0xD83C; 0xDF89])
         Severity.success.
Proof.
  destruct w as [page calls]. simpl. intros Hsel Hok Hni. run_page.
  rewrite Hsel. simpl. rewrite Hok. simpl.
  split; [done|]. split; [|done]. by apply update_absent_id.
Qed.

Lemma update_of_absent_record_witness :
  let rex :=
    Pet.mk (lit "9") (lit "Rex") (lit "dog") (lit "Lab") 2%Q 20%Q (lit "high")
      None None false None in
  let formData :=
    PetFormData.mk (lit "Rex") (lit "dog") (lit "Lab") 3%Q 21%Q (lit "high")
      (lit "None") [] false in
  let api :=
    apiService.mk (Returned []) (fun _ => Returned rex)
      (fun _ _ => Returned rex) (fun _ => Returned tt) in
  let w :=
    MyPetsPage.mkWorld
      (MyPetsPage.mkState MyPetsPage.mockPets false None true false (Some rex)
         None false false (Snackbar.mk false [] Severity.success)) [] in
  MyPetsPage.pets (MyPetsPage.view (MyPetsPage.handleFormSubmit api formData w).2)
  = MyPetsPage.mockPets.
Proof.
  intros rex formData api w.
  destruct (update_of_absent_record api rex rex formData w eq_refl eq_refl)
    as (_ & H & _); [|exact H].
  apply (bool_decide_unpack _). by vm_compute.
Defined.

(** A successful delete whose target is no longer in the list removes
    nothing, and still announces the removal by the target's name. *)
Theorem delete_of_absent_record
    (api : apiService.t) (deletingPet : Pet.t) (w : MyPetsPage.World) :
  MyPetsPage.deletingPet (MyPetsPage.view w) = Some deletingPet ->
  apiService.deletePet api (Pet.id deletingPet) = Returned tt ->
  Pet.id deletingPet ∉ ids (MyPetsPage.pets (MyPetsPage.view w)) ->
  let r := MyPetsPage.handleDeleteConfirm api w in
  r.1 = Returned tt
  /\ MyPetsPage.pets (MyPetsPage.view r.2) = MyPetsPage.pets (MyPetsPage.view w)
  /\ MyPetsPage.snackbar (MyPetsPage.view r.2)
     = Snackbar.mk true (Pet.name deletingPet ++ lit " has been removed")
         Severity.success.
Proof.
  destruct w as [page calls]. simpl. intros Hsel Hok Hni. run_page.
  rewrite Hsel. simpl. rewrite Hok. simpl.
  split; [done|]. split; [|done]. by apply filter_absent_id.
Qed.

Lemma delete_of_absent_record_witness :
  let rex :=
    Pet.mk (lit "9") (lit "Rex") (lit "dog") (lit "Lab") 2%Q 20%Q (lit "high")
      None None false None in
  let api :=
    apiService.mk (Returned []) (fun _ => Returned rex)
      (fun _ _ => Returned rex) (fun _ => Returned tt) in
  let w :=
    MyPetsPage.mkWorld
      (MyPetsPage.mkState MyPetsPage.mockPets false None false true None
         (Some rex) false false (Snackbar.mk false [] Severity.success)) [] in
  MyPetsPage.pets (MyPetsPage.view (MyPetsPage.handleDeleteConfirm api w).2)
  = MyPetsPage.mockPets.
Proof.
  intros rex api w.
  destruct (delete_of_absent_record api rex w eq_refl eq_refl)
    as (_ & H & _); [|exact H].
  apply (bool_decide_unpack _). by vm_compute.
Defined.

(** Identifiers stay unique. If no two records of the list share an
    identifier, this is still so after any operation, resolved or rejected,
    provided a create is answered with an identifier that the list does not
    have yet. An update, moreover, leaves the sequence of identifiers exactly
    as it was. *)
Theorem operations_keep_ids_unique
    (api : apiService.t) (op : Operation) (w : MyPetsPage.World) :
  selected op (MyPetsPage.view w) ->
  NoDup (ids (MyPetsPage.pets (MyPetsPage.view w))) ->
  (forall formData createdPet,
      op = Create formData ->
      apiService.createPet api formData = Returned createdPet ->
      Pet.id createdPet ∉ ids (MyPetsPage.pets (MyPetsPage.view w))) ->
  let r := perform api op w in
  NoDup (ids (MyPetsPage.pets (MyPetsPage.view r.2)))
  /\ (forall editingPet formData,
        op = Update editingPet formData ->
        ids (MyPetsPage.pets (MyPetsPage.view r.2))
        = ids (MyPetsPage.pets (MyPetsPage.view w))).
Proof.
  destruct w as [page calls]. destruct op as [fd | ep fd | dp]; simpl;
    intros Hsel Hnd Hfresh; run_page; rewrite Hsel; simpl.
  - split; [|discriminate].
    destruct (apiService.createPet api fd) as [created|e] eqn:Hc; simpl;
      [|done].
    unfold ids. rewrite fmap_app. apply NoDup_app. split; [done|].
    split; [|apply NoDup_singleton].
    intros x Hx Hin. apply list_elem_of_singleton in Hin. subst x.
    by apply (Hfresh fd created).
  - destruct (apiService.updatePet api (Pet.id ep) fd) as [up|e]; simpl.
    + rewrite update_keeps_ids by done. split; [done|]. by intros.
    + split; [done|]. by intros.
  - split; [|discriminate].
    destruct (apiService.deletePet api (Pet.id dp)) as [u|e]; simpl; [|done].
    eapply sublist_NoDup; [exact Hnd|]. apply delete_ids_sublist.
Qed.

Lemma operations_keep_ids_unique_witness :
  let rex :=
    Pet.mk (lit "9") (lit "Rex") (lit "dog") (lit "Lab") 2%Q 20%Q (lit "high")
      None None false None in
  let formData :=
    PetFormData.mk (lit "Rex") (lit "dog") (lit "Lab") 2%Q 20%Q (lit "high")
      (lit "None") [] false in
  let api :=
    apiService.mk (Returned []) (fun _ => Returned rex)
      (fun _ _ => Returned rex) (fun _ => Returned tt) in
  let w :=
    MyPetsPage.mkWorld
      (MyPetsPage.mkState MyPetsPage.mockPets false None true false None
         None false false (Snackbar.mk false [] Severity.success)) [] in
  NoDup
    (ids (MyPetsPage.pets
            (MyPetsPage.view (MyPetsPage.handleFormSubmit api formData w).2))).
Proof.
  intros rex formData api w.
  destruct (operations_keep_ids_unique api (Create formData) w eq_refl)
    as (H & _); [| |exact H].
  - apply (bool_decide_unpack _). by vm_compute.
  - intros fd created _ Hc. injection Hc as <-.
    apply (bool_decide_unpack _). by vm_compute.
Defined.

(** ** Openers, closers and the notification *)

(** The openers and closers of the dialogs, the recipe placeholder and the
    closer of the notification never throw, send no request, and leave the
    list, the page's loading flag and error, and both busy flags as they
    were. *)
Theorem navigation_frame (n : MyPetsPage.Navigation) (w : MyPetsPage.World) :
  let r := MyPetsPage.navigate n w in
  let page := MyPetsPage.view r.2 in
  let before := MyPetsPage.view w in
  r.1 = Returned tt
  /\ requests r.2 = requests w
  /\ MyPetsPage.pets page = MyPetsPage.pets before
  /\ MyPetsPage.loading page = MyPetsPage.loading before
  /\ MyPetsPage.error page = MyPetsPage.error before
  /\ MyPetsPage.formLoading page = MyPetsPage.formLoading before
  /\ MyPetsPage.deleteLoading page = MyPetsPage.deleteLoading before.
Proof.
  destruct w as [page0 calls].
  destruct n; run_handlers; (split; [done|]);
    (split; [by count_requests|]); done.
Qed.

(** The opener decides the operation. After [handleAddPet] a submission is a
    create, also when a pet was being edited before; after [handleEditPet] it
    is an update of that pet; after [handleDeletePet] a confirmation deletes
    that pet. Each time the matching dialog is open. *)
Theorem opener_decides_operation
    (api : apiService.t) (formData : PetFormData.t) (pet : Pet.t)
    (w : MyPetsPage.World) :
  let added :=
    bind MyPetsPage.handleAddPet
      (fun _ => MyPetsPage.handleFormSubmit api formData) w in
  let edited :=
    bind (MyPetsPage.handleEditPet pet)
      (fun _ => MyPetsPage.handleFormSubmit api formData) w in
  let deleted :=
    bind (MyPetsPage.handleDeletePet pet)
      (fun _ => MyPetsPage.handleDeleteConfirm api) w in
  (requests added.2 = requests w ++ [ApiCreatePet formData]
   /\ MyPetsPage.formDialogOpen (MyPetsPage.view added.2) = true)
  /\ (requests edited.2 = requests w ++ [ApiUpdatePet (Pet.id pet) formData]
      /\ MyPetsPage.formDialogOpen (MyPetsPage.view edited.2) = true)
  /\ (requests deleted.2 = requests w ++ [ApiDeletePet (Pet.id pet)]
      /\ MyPetsPage.deleteDialogOpen (MyPetsPage.view deleted.2) = true).
Proof.
  destruct w as [page0 calls]. run_handlers. split; [|split].
  - destruct (apiService.createPet api formData); simpl;
      (split; [by count_requests | done]).
  - destruct (apiService.updatePet api (Pet.id pet) formData); simpl;
      (split; [by count_requests | done]).
  - destruct (apiService.deletePet api (Pet.id pet)); simpl;
      (split; [by count_requests | done]).
Qed.

(** ** The record that a create adds *)



(** ** The form: validation messages *)

(** Validation reports the six required fields and nothing else: every stored
    message sits under the key of a required field, is that field's message
    and is not blank; there is one message per invalid field; and the health
    issues, the image reference and the desexed flag never influence the
    mapping. *)
Theorem validation_reports_only_required (formData : PetFormData.t) :
  (forall k message,
      PetFormDialog.newErrors formData !! k = Some message ->
      message <> []
      /\ exists f, k = fieldKey f /\ message = fieldMessage f
                   /\ flagged formData f = true)
  /\ size (PetFormDialog.newErrors formData)
     = length (List.filter (flagged formData) requiredFields)
  /\ (forall v,
        PetFormDialog.newErrors
          (PetFormDialog.withInput (PetFormDialog.InputHealthIssues v) formData)
        = PetFormDialog.newErrors formData)
  /\ (forall v,
        PetFormDialog.newErrors
          (PetFormDialog.withInput (PetFormDialog.InputImageUrl v) formData)
        = PetFormDialog.newErrors formData)
  /\ (forall v,
        PetFormDialog.newErrors
          (PetFormDialog.withInput (PetFormDialog.InputIsDesexed v) formData)
        = PetFormDialog.newErrors formData).
Proof.
  split; [|split; [|by repeat split]].
  - intros k message Hk.
    destruct (newErrors_keys formData k) as [f ->]; [by rewrite Hk|].
    rewrite newErrors_lookup in Hk.
    destruct (flagged formData f) eqn:Hf; [|discriminate].
    injection Hk as <-. split; [|by exists f].
    destruct f; simpl; rewrite <- (app_nil_r (lit _));
      by apply lit_app_nonempty.
  - unfold PetFormDialog.newErrors, requiredFields, flagged. cbn [List.filter].
    destruct (falsy (trim (PetFormData.name formData))),
      (falsy (PetFormData.type formData)),
      (falsy (trim (PetFormData.breed formData))),
      (le_zero (PetFormData.age formData)),
      (le_zero (PetFormData.weight formData)),
      (falsy (PetFormData.activityLevel formData)); by vm_compute.
Qed.

(** ** The form: typing *)

Lemma handleInputChange_run
    {W : Type} (i : PetFormDialog.Input) (s : Env.t PetFormDialog.State W) :
  PetFormDialog.handleInputChange i s
  = (Returned tt,
     Env.mk
       (PetFormDialog.mkState
          (PetFormDialog.withInput i (PetFormDialog.formData (Env.self s)))
          (blanked (PetFormDialog.inputKey i)
             (PetFormDialog.errors (Env.self s)))
          (PetFormDialog.submitError (Env.self s)))
       (Env.parent s) (Env.calls s)).
Proof.
  unfold PetFormDialog.handleInputChange, bind, get, setSelf, modify, blanked.
  simpl. by destruct (negb _).
Qed.

Lemma blanked_lookup_ne (k k' : string) (errors : gmap string jsstring) :
  k <> k' -> blanked k errors !! k' = errors !! k'.
Proof.
  intros Hne. unfold blanked. destruct (negb _); [|done].
  by rewrite lookup_insert_ne.
Qed.

Lemma blanked_lookup_eq (k : string) (errors : gmap string jsstring) :
  falsy_opt (blanked k errors !! k) = true.
Proof.
  unfold blanked. destruct (negb (falsy_opt (errors !! k))) eqn:E.
  - by rewrite lookup_insert_eq.
  - by apply negb_false_iff in E.
Qed.

Lemma blanked_commute (k k' : string) (errors : gmap string jsstring) :
  k <> k' -> blanked k' (blanked k errors) = blanked k (blanked k' errors).
Proof.
  intros Hne. unfold blanked at 1 3.
  rewrite !blanked_lookup_ne by done. unfold blanked.
  destruct (negb (falsy_opt (errors !! k))),
    (negb (falsy_opt (errors !! k'))); try done.
  by apply insert_insert_ne.
Qed.

Lemma blanked_idem (k : string) (errors : gmap string jsstring) :
  blanked k (blanked k errors) = blanked k errors.
Proof. unfold blanked at 1. by rewrite blanked_lookup_eq. Qed.

(** Typing into an input calls no prop and leaves the parent and the submit
    error alone. The field takes the value. Afterwards no message is shown for
    that field (its entry is absent or the empty string), the entries of the
    other fields are as before, and a later validation will judge every other
    required field as it would have before. *)
Theorem input_change_frame
    {W : Type} (i : PetFormDialog.Input) (s : Env.t PetFormDialog.State W) :
  let r := PetFormDialog.handleInputChange i s in
  let form := Env.self r.2 in
  let before := Env.self s in
  r.1 = Returned tt
  /\ Env.calls r.2 = Env.calls s
  /\ Env.parent r.2 = Env.parent s
  /\ PetFormDialog.submitError form = PetFormDialog.submitError before
  /\ PetFormDialog.formData form
     = PetFormDialog.withInput i (PetFormDialog.formData before)
  /\ falsy_opt (PetFormDialog.errors form !! PetFormDialog.inputKey i) = true
  /\ (forall k, k <> PetFormDialog.inputKey i ->
        PetFormDialog.errors form !! k = PetFormDialog.errors before !! k)
  /\ (forall f, fieldKey f <> PetFormDialog.inputKey i ->
        flagged (PetFormDialog.formData form) f
        = flagged (PetFormDialog.formData before) f).
Proof.
  intros r form before. subst r form before.
  rewrite handleInputChange_run. simpl.
  split; [done|]. split; [done|]. split; [done|]. split; [done|].
  split; [done|]. split; [apply blanked_lookup_eq|]. split.
  - intros k Hk. by apply blanked_lookup_ne.
  - intros f Hf. destruct i, f; simpl in *; done.
Qed.

(** Inputs to different fields commute: the order in which two fields are
    typed into does not matter for the state of the form. Two inputs to the
    same field leave exactly what the second one alone would leave. *)
Theorem input_changes_compose
    {W : Type} (i j : PetFormDialog.Input) (s : Env.t PetFormDialog.State W) :
  let both (a b : PetFormDialog.Input) :=
    bind (PetFormDialog.handleInputChange a)
      (fun _ => PetFormDialog.handleInputChange b) s in
  (PetFormDialog.inputKey i <> PetFormDialog.inputKey j ->
   both i j = both j i)
  /\ (PetFormDialog.inputKey i = PetFormDialog.inputKey j ->
      both i j = PetFormDialog.handleInputChange j s).
Proof.
  unfold bind. repeat (rewrite !handleInputChange_run; simpl).
  split; intros Hk.
  - rewrite (blanked_commute _ _ _ Hk). do 3 f_equal.
    destruct i, j; simpl in *; done.
  - rewrite Hk, blanked_idem. do 3 f_equal.
    destruct i, j; simpl in *; done.
Qed.

Lemma input_changes_compose_witness :
  let s : Env.t PetFormDialog.State unit :=
    Env.mk
      (PetFormDialog.mkState PetFormDialog.defaults
         (PetFormDialog.newErrors PetFormDialog.defaults) [])
      tt [] in
  let name := PetFormDialog.InputName (lit "Rex") in
  let age := PetFormDialog.InputAge 2%Q in
  bind (PetFormDialog.handleInputChange name)
    (fun _ => PetFormDialog.handleInputChange age) s
  = bind (PetFormDialog.handleInputChange age)
      (fun _ => PetFormDialog.handleInputChange name) s.
Proof.
  intros s name age.
  destruct (input_changes_compose name age s) as [H _].
  apply H. discriminate.
Defined.

(** ** The form: opening, saving, closing *)

Lemma resetOnOpen_open
    {W : Type} (props : PetFormDialog.Props W)
    (s : Env.t PetFormDialog.State W) :
  PetFormDialog.open props = true ->
  PetFormDialog.resetOnOpen props s
  = (Returned tt,
     Env.mk
       (PetFormDialog.mkState
          (match PetFormDialog.pet props with
           | Some pet => PetFormDialog.fromPet pet
           | None => PetFormDialog.defaults
           end) ∅ [])
       (Env.parent s) (Env.calls s)).
Proof.
  intros Ho. unfold PetFormDialog.resetOnOpen. rewrite Ho.
  unfold bind, setSelf, modify. by destruct (PetFormDialog.pet props).
Qed.

(** A form opened to add a pet cannot be saved as it stands: after the reset
    the form holds the defaults, and a click on the save button calls no prop,
    leaves the parent alone and shows the message of each of the six required
    fields. *)
Theorem fresh_create_form_rejected
    {W : Type} (props : PetFormDialog.Props W)
    (s : Env.t PetFormDialog.State W) :
  PetFormDialog.open props = true ->
  PetFormDialog.pet props = None ->
  let opened := (PetFormDialog.resetOnOpen props s).2 in
  let r := PetFormDialog.dispatch props PetFormDialog.ClickSave opened in
  Env.self opened = PetFormDialog.initial
  /\ r.1 = Returned tt
  /\ Env.calls r.2 = Env.calls s
  /\ Env.parent r.2 = Env.parent s
  /\ PetFormDialog.formData (Env.self r.2) = PetFormDialog.defaults
  /\ (PetFormDialog.loading props = false ->
      forall f,
        PetFormDialog.errors (Env.self r.2) !! fieldKey f
        = Some (fieldMessage f)).
Proof.
  intros Ho Hp opened r. subst r opened.
  rewrite (resetOnOpen_open props s Ho), Hp. simpl.
  split; [done|]. unfold PetFormDialog.dispatch.
  destruct (PetFormDialog.loading props); simpl.
  - split; [done|]. split; [done|]. split; [done|]. split; [done|].
    discriminate.
  - rewrite handleSubmit_invalid; simpl.
    + split; [done|]. split; [done|]. split; [done|]. split; [done|].
      intros _ f. rewrite newErrors_lookup. by destruct f.
    + intros He. rewrite newErrors_empty in He.
      specialize (He FieldName). discriminate.
Qed.

Lemma fresh_create_form_rejected_witness :
  let props : PetFormDialog.Props unit :=
    PetFormDialog.mkProps true (ret tt) (fun _ => ret tt) None false in
  let s :=
    Env.mk
      (PetFormDialog.mkState
         (PetFormData.mk (lit "Rex") (lit "dog") (lit "Lab") 2%Q 20%Q
            (lit "high") (lit "None") [] false) ∅ (lit "stale")) tt [] in
  Env.calls
    (PetFormDialog.dispatch props PetFormDialog.ClickSave
       (PetFormDialog.resetOnOpen props s).2).2 = [].
Proof.
  intros props s.
  destruct (fresh_create_form_rejected props s eq_refl eq_refl)
    as (_ & _ & H & _).
  exact H.
Defined.

(** A form opened to edit a pet holds the pet's data, with "None" for
    missing or empty health issues and the empty string for a missing image
    reference, and shows no error. Saving it unchanged submits exactly that
    data when the form is not loading and the pet's required fields are
    valid, and only then; while it is loading, or when a required field is
    invalid, the click calls no prop and leaves the parent alone. *)
Theorem edit_form_saved_unchanged
    {W : Type} (props : PetFormDialog.Props W)
    (s : Env.t PetFormDialog.State W) (pet : Pet.t) :
  PetFormDialog.open props = true ->
  PetFormDialog.pet props = Some pet ->
  let opened := (PetFormDialog.resetOnOpen props s).2 in
  let r := PetFormDialog.dispatch props PetFormDialog.ClickSave opened in
  let shown := PetFormDialog.formData (Env.self opened) in
  Env.self opened = PetFormDialog.mkState (PetFormDialog.fromPet pet) ∅ []
  /\ (PetFormData.name shown, PetFormData.type shown, PetFormData.breed shown,
      PetFormData.activityLevel shown)
     = (Pet.name pet, Pet.type pet, Pet.breed pet, Pet.activityLevel pet)
  /\ (PetFormData.age shown, PetFormData.weight shown,
      PetFormData.isDesexed shown)
     = (Pet.age pet, Pet.weight pet, Pet.isDesexed pet)
  /\ PetFormData.healthIssues shown <> []
  /\ (falsy_opt (Pet.healthIssues pet) = false ->
      Some (PetFormData.healthIssues shown) = Pet.healthIssues pet)
  /\ ((exists rest,
         Env.calls r.2 = Env.calls s ++ CallOnSubmit shown :: rest)
      <-> PetFormDialog.loading props = false
          /\ forall f, flagged shown f = false)
  /\ (PetFormDialog.loading props = true \/ (exists f, flagged shown f = true) ->
      Env.calls r.2 = Env.calls s /\ Env.parent r.2 = Env.parent s).
Proof.
  intros Ho Hp opened r shown. subst r shown opened.
  rewrite (resetOnOpen_open props s Ho), Hp. simpl.
  split; [done|]. split; [done|]. split; [done|].
  assert (Hnone : lit "None" <> []).
  { rewrite <- (app_nil_r (lit "None")). by apply lit_app_nonempty. }
  split; [|split].
  - unfold or_else, falsy.
    destruct (Pet.healthIssues pet) as [h|]; [|done].
    destruct (decide (h = [])) as [->|Hh].
    + by rewrite bool_decide_eq_true_2.
    + by rewrite bool_decide_eq_false_2.
  - unfold or_else, falsy_opt, falsy.
    destruct (Pet.healthIssues pet) as [h|]; [|done].
    by destruct (bool_decide (h = [])).
  - unfold PetFormDialog.dispatch.
    set (opened :=
      Env.mk (PetFormDialog.mkState (PetFormDialog.fromPet pet) ∅ [])
        (Env.parent s) (Env.calls s)).
    rewrite <- newErrors_empty.
    destruct (PetFormDialog.loading props) eqn:Hl; simpl.
    { split; [|done]. split; [|by intros [? _]]. intros [rest Hc].
      rewrite <- (app_nil_r (Env.calls s)) in Hc at 1.
      apply app_inv_head in Hc. discriminate. }
    destruct (decide (PetFormDialog.newErrors (PetFormDialog.fromPet pet) = ∅))
      as [Hv|Hv].
    + split.
      * split; [done|]. intros _.
        destruct (PetFormDialog.onSubmit props (PetFormDialog.fromPet pet)
                    (Env.parent s)) as [[u|e] w'] eqn:Hs.
        -- rewrite (handleSubmit_resolved props opened u w' Hv Hs).
           by eexists.
        -- rewrite (handleSubmit_thrown props opened e w' Hv Hs).
           by eexists.
      * intros [?|[f Hf]]; [done|]. rewrite newErrors_empty in Hv. congruence.
    + rewrite (handleSubmit_invalid props opened Hv). simpl. split.
      * split; [|by intros [_ ?]]. intros [rest Hc].
        rewrite <- (app_nil_r (Env.calls s)) in Hc at 1.
        apply app_inv_head in Hc. discriminate.
      * done.
Qed.

(** Buddy without health issues, in a form that is not loading: the form
    shows "None", and saving it unchanged submits it. *)
Lemma edit_form_saved_unchanged_witness :
  let buddy :=
    Pet.mk (lit "1") (lit "Buddy") (lit "Dog") (lit "Golden Retriever") 3%Q
      25%Q (lit "High") None None true (Some healthy) in
  let props : PetFormDialog.Props unit :=
    PetFormDialog.mkProps true (ret tt) (fun _ => ret tt) (Some buddy) false in
  let s := Env.mk PetFormDialog.initial tt [] in
  PetFormData.healthIssues
    (PetFormDialog.formData
       (Env.self (PetFormDialog.resetOnOpen props s).2)) = lit "None"
  /\ exists rest,
       Env.calls
         (PetFormDialog.dispatch props PetFormDialog.ClickSave
            (PetFormDialog.resetOnOpen props s).2).2
       = CallOnSubmit (PetFormDialog.fromPet buddy) :: rest.
Proof.
  intros buddy props s.
  destruct (edit_form_saved_unchanged props s buddy eq_refl eq_refl)
    as (H & _ & _ & _ & _ & [_ Hsave] & _).
  split; [by rewrite H|].
  destruct Hsave as [rest Hrest]; [|by exists rest].
  split; [reflexivity|]. intros f. by destruct f; vm_compute.
Defined.

(** Which action of the user reaches which prop, whatever [open] is (the
    component does not test it). [onSubmit] is called only by a click on the
    save button, and then exactly when the form is not loading and its record
    passes validation; it receives the record as the form holds it. The
    close icon, the cancel button and a dismissal call [onClose] once and
    nothing else, and keep the content of the form. Typing calls no prop. *)
Theorem form_dispatch_calls
    {W : Type} (props : PetFormDialog.Props W) (a : PetFormDialog.UserAction)
    (s : Env.t PetFormDialog.State W) :
  let r := PetFormDialog.dispatch props a s in
  let formData := PetFormDialog.formData (Env.self s) in
  exists new,
    Env.calls r.2 = Env.calls s ++ new
    /\ (forall petData, CallOnSubmit petData ∈ new -> petData = formData)
    /\ (CallOnSubmit formData ∈ new
        <-> a = PetFormDialog.ClickSave
            /\ PetFormDialog.loading props = false
            /\ PetFormDialog.newErrors formData = ∅)
    /\ (a = PetFormDialog.ClickCloseIcon \/ a = PetFormDialog.ClickCancel
        \/ a = PetFormDialog.Dismiss ->
        Env.self r.2 = Env.self s /\ new = [CallOnClose])
    /\ (forall i, a = PetFormDialog.Change i ->
          new = [] /\ Env.parent r.2 = Env.parent s).
Proof.
  unfold PetFormDialog.dispatch.
  assert (Hclose :
    exists new,
      Env.calls (callProp CallOnClose (PetFormDialog.onClose props) s).2
      = Env.calls s ++ new
      /\ (forall petData, CallOnSubmit petData ∈ new -> False)
      /\ Env.self (callProp CallOnClose (PetFormDialog.onClose props) s).2
         = Env.self s
      /\ new = [CallOnClose]).
  { exists [CallOnClose]. unfold callProp.
    destruct (PetFormDialog.onClose props _). simpl.
    split; [done|]. split; [|done].
    intros petData Hin. apply list_elem_of_singleton in Hin. discriminate. }
  destruct a as [ | | | |i].
  - destruct Hclose as (new & Hc & Hn & Hs & ->). exists [CallOnClose].
    split; [done|]. split; [intros fd Hin; by destruct (Hn fd)|].
    split; [split; [intros Hin; by destruct (Hn _ Hin) | by intros [? _]]|].
    by split.
  - destruct Hclose as (new & Hc & Hn & Hs & ->). exists [CallOnClose].
    split; [done|]. split; [intros fd Hin; by destruct (Hn fd)|].
    split; [split; [intros Hin; by destruct (Hn _ Hin) | by intros [? _]]|].
    by split.
  - destruct (PetFormDialog.loading props) eqn:Hl; simpl.
    { exists []. rewrite app_nil_r. split; [done|].
      split; [by intros ? ?%elem_of_nil|].
      split; [split; [by intros ?%elem_of_nil | by intros (_ & ? & _)]|].
      split; [by intros [H|[H|H]] | done]. }
    destruct (decide (PetFormDialog.newErrors
                        (PetFormDialog.formData (Env.self s)) = ∅))
      as [Hv|Hv].
    + destruct (PetFormDialog.onSubmit props
                  (PetFormDialog.formData (Env.self s)) (Env.parent s))
        as [[u|e] w'] eqn:Hs.
      * rewrite (handleSubmit_resolved props s u w' Hv Hs). simpl.
        eexists. split; [reflexivity|]. split.
        { intros fd Hin. apply elem_of_cons in Hin as [Hin|Hin].
          - by injection Hin.
          - apply list_elem_of_singleton in Hin. discriminate. }
        split; [split; [done | intros _; apply list_elem_of_here]|].
        split; [by intros [H|[H|H]] | done].
      * rewrite (handleSubmit_thrown props s e w' Hv Hs). simpl.
        eexists. split; [reflexivity|]. split.
        { intros fd Hin. apply list_elem_of_singleton in Hin.
          by injection Hin. }
        split; [split; [done | intros _; apply list_elem_of_here]|].
        split; [by intros [H|[H|H]] | done].
    + rewrite (handleSubmit_invalid props s Hv). simpl.
      exists []. rewrite app_nil_r. split; [done|].
      split; [by intros ? ?%elem_of_nil|].
      split; [split; [by intros ?%elem_of_nil | by intros (_ & _ & ?)]|].
      split; [by intros [H|[H|H]] | done].
  - destruct Hclose as (new & Hc & Hn & Hs & ->). exists [CallOnClose].
    split; [done|]. split; [intros fd Hin; by destruct (Hn fd)|].
    split; [split; [intros Hin; by destruct (Hn _ Hin) | by intros [? _]]|].
    by split.
  - rewrite handleInputChange_run. simpl. exists []. rewrite app_nil_r.
    split; [done|]. split; [by intros ? ?%elem_of_nil|].
    split; [split; [by intros ?%elem_of_nil | by intros [? _]]|].
    split; [by intros [H|[H|H]] | done].
Qed.

(** ** The form inside the page: both flows *)

(** What a successful update stores can be edited again as it was entered:
    the form opened on the stored record shows the submitted record, except
    that empty health issues are shown as "None". *)
Theorem update_round_trip
    (api : apiService.t) (editingPet updatedPet : Pet.t)
    (formData : PetFormData.t) (w : MyPetsPage.World)
    (form : PetFormDialog.State) (log : list Event) :
  MyPetsPage.editingPet (MyPetsPage.view w) = Some editingPet ->
  apiService.updatePet api (Pet.id editingPet) formData = Returned updatedPet ->
  let r := MyPetsPage.handleFormSubmit api formData w in
  (PetFormData.healthIssues formData <> [] -> redisplayed formData = formData)
  /\ forall (i : nat) (pet : Pet.t),
       MyPetsPage.pets (MyPetsPage.view w) !! i = Some pet ->
       Pet.id pet = Pet.id editingPet ->
       exists stored,
         MyPetsPage.pets (MyPetsPage.view r.2) !! i = Some stored
         /\ let w' := (MyPetsPage.handleEditPet stored r.2).2 in
            let props := MyPetsPage.formDialogProps api (MyPetsPage.view w') in
            PetFormDialog.open props = true
            /\ Env.self
                 (PetFormDialog.resetOnOpen props (formInPage form w' log)).2
               = PetFormDialog.mkState (redisplayed formData) ∅ [].
Proof.
  destruct w as [page calls]. simpl. intros Hsel Hok. split.
  - intros Hne. unfold redisplayed, or_else, falsy.
    rewrite bool_decide_eq_false_2 by done. by destruct formData.
  - intros i pet Hi Hid. run_page. rewrite Hsel. simpl. rewrite Hok. simpl.
    rewrite list_lookup_fmap, Hi. simpl.
    rewrite bool_decide_eq_true_2 by done.
    eexists. split; [reflexivity|]. run_handlers. split; [done|].
    unfold PetFormDialog.setSubmitError, PetFormDialog.setErrors,
      PetFormDialog.setFormData. simpl. f_equal.
    unfold PetFormDialog.fromPet, redisplayed, MyPetsPage.completeUpdatedPet.
    simpl.
    destruct (falsy (PetFormData.imageUrl formData)) eqn:E; [|done].
    apply falsy_true in E. by rewrite E.
Qed.

Lemma update_round_trip_witness :
  let formData :=
    PetFormData.mk (lit "Whiskers") (lit "cat") (lit "Persian") 3%Q 5%Q
      (lit "low") [] (lit "/pets/cat1.jpg") true in
  let whiskers :=
    Pet.mk (lit "2") (lit "Whiskers") (lit "Cat") (lit "Persian") 2%Q 4%Q
      (lit "Low") (Some (lit "Allergies")) (Some (lit "/pets/cat1.jpg")) true
      (Some needs_attention) in
  let api :=
    apiService.mk (Returned []) (fun _ => Returned whiskers)
      (fun _ _ => Returned whiskers) (fun _ => Returned tt) in
  let w :=
    MyPetsPage.mkWorld
      (MyPetsPage.mkState MyPetsPage.mockPets false None true false
         (Some whiskers) None false false
         (Snackbar.mk false [] Severity.success)) [] in
  exists stored,
    MyPetsPage.pets (MyPetsPage.view (MyPetsPage.handleFormSubmit api formData w).2)
      !! 1%nat = Some stored
    /\ PetFormData.healthIssues (PetFormDialog.fromPet stored) = lit "None".
Proof.
  intros formData whiskers api w.
  destruct (update_round_trip api whiskers whiskers formData w
              PetFormDialog.initial [] eq_refl eq_refl) as [_ H].
  destruct (H 1%nat whiskers eq_refl eq_refl) as (stored & Hs & _ & Hr).
  exists stored. split; [exact Hs|].
  vm_compute in Hs. injection Hs as <-. by vm_compute.
Defined.

(** Saving a valid record through the form that the page renders, the API
    resolving: the page sends the one request of the operation (an update of
    the pet being edited, a create otherwise), announces success, and the
    form then closes itself, so that the page has the dialog closed and no pet
    being edited; the busy flag is false and the form shows no submit
    error. *)
Theorem form_flow_success
    (api : apiService.t) (page : MyPetsPage.State) (calls : list Event)
    (form : PetFormDialog.State) (log : list Event) (answer : Pet.t) :
  let formData := PetFormDialog.formData form in
  PetFormDialog.newErrors formData = ∅ ->
  match MyPetsPage.editingPet page with
  | Some editingPet => apiService.updatePet api (Pet.id editingPet) formData
  | None => apiService.createPet api formData
  end = Returned answer ->
  let w := MyPetsPage.mkWorld page calls in
  let r :=
    PetFormDialog.handleSubmit (MyPetsPage.formDialogProps api page)
      (formInPage form w log) in
  let after := MyPetsPage.view (Env.parent r.2) in
  r.1 = Returned tt
  /\ PetFormDialog.submitError (Env.self r.2) = []
  /\ Env.calls r.2 = log ++ [CallOnSubmit formData; CallOnClose]
  /\ requests (Env.parent r.2)
     = requests w
         ++ [match MyPetsPage.editingPet page with
             | Some editingPet => ApiUpdatePet (Pet.id editingPet) formData
             | None => ApiCreatePet formData
             end]
  /\ MyPetsPage.formDialogOpen after = false
  /\ MyPetsPage.editingPet after = None
  /\ MyPetsPage.formLoading after = false
  /\ Snackbar.open (MyPetsPage.snackbar after) = true
  /\ Snackbar.severity (MyPetsPage.snackbar after) = Severity.success.
Proof.
  intros formData Hvalid Hok w r after. subst r after w.
  destruct (MyPetsPage.handleFormSubmit api formData
              (MyPetsPage.mkWorld page calls)) as [res w1] eqn:Hsub.
  assert (Hres : res = Returned tt
    /\ requests w1
       = requests (MyPetsPage.mkWorld page calls)
           ++ [match MyPetsPage.editingPet page with
               | Some editingPet => ApiUpdatePet (Pet.id editingPet) formData
               | None => ApiCreatePet formData
               end]
    /\ MyPetsPage.formLoading (MyPetsPage.view w1) = false
    /\ Snackbar.open (MyPetsPage.snackbar (MyPetsPage.view w1)) = true
    /\ Snackbar.severity (MyPetsPage.snackbar (MyPetsPage.view w1))
       = Severity.success).
  { revert Hsub. run_handlers.
    destruct (MyPetsPage.editingPet page) as [ep|]; simpl; rewrite Hok; simpl;
      intros [= <- <-]; simpl; (split; [done|]);
      (split; [by count_requests|]); done. }
  destruct Hres as (-> & Hreq & Hload & Hopen & Hsev).
  rewrite (handleSubmit_resolved (MyPetsPage.formDialogProps api page)
             (formInPage form (MyPetsPage.mkWorld page calls) log) tt w1
             Hvalid Hsub).
  revert Hreq Hload Hopen Hsev. destruct w1 as [p1 c1]. unfold requests.
  run_handlers. done.
Qed.

Lemma form_flow_success_witness :
  let formData :=
    PetFormData.mk (lit "Rex") (lit "dog") (lit "Lab") 2%Q 20%Q (lit "high")
      (lit "None") [] false in
  let rex :=
    Pet.mk (lit "4") (lit "Rex") (lit "dog") (lit "Lab") 2%Q 20%Q (lit "high")
      (Some (lit "None")) None false None in
  let api :=
    apiService.mk (Returned []) (fun _ => Returned rex)
      (fun _ _ => Returned rex) (fun _ => Returned tt) in
  let page :=
    MyPetsPage.mkState MyPetsPage.mockPets false None true false None None
      false false (Snackbar.mk false [] Severity.success) in
  let r :=
    PetFormDialog.handleSubmit (MyPetsPage.formDialogProps api page)
      (formInPage (PetFormDialog.mkState formData ∅ [])
         (MyPetsPage.mkWorld page []) []) in
  MyPetsPage.formDialogOpen (MyPetsPage.view (Env.parent r.2)) = false
  /\ requests (Env.parent r.2) = [ApiCreatePet formData].
Proof.
  intros formData rex api page r.
  assert (Hv : PetFormDialog.newErrors formData = ∅) by (by vm_compute).
  destruct (form_flow_success api page [] (PetFormDialog.mkState formData ∅ [])
              [] rex Hv eq_refl) as (_ & _ & _ & Hreq & Hopen & _).
  split; [exact Hopen | exact Hreq].
Defined.

(** Saving a valid record through the form that the page renders, the API
    rejecting: the page announces the failure and throws, the form keeps the
    error's message and does not close, so that the page still has the dialog
    as it was and the same pet being edited (a second attempt is the same
    operation); the list is unchanged and the busy flag is false. *)
Theorem form_flow_failure
    (api : apiService.t) (page : MyPetsPage.State) (calls : list Event)
    (form : PetFormDialog.State) (log : list Event) (e : thrown) :
  let formData := PetFormDialog.formData form in
  PetFormDialog.newErrors formData = ∅ ->
  match MyPetsPage.editingPet page with
  | Some editingPet => apiService.updatePet api (Pet.id editingPet) formData
  | None => apiService.createPet api formData
  end = Thrown e ->
  let w := MyPetsPage.mkWorld page calls in
  let r :=
    PetFormDialog.handleSubmit (MyPetsPage.formDialogProps api page)
      (formInPage form w log) in
  let after := MyPetsPage.view (Env.parent r.2) in
  r.1 = Returned tt
  /\ PetFormDialog.submitError (Env.self r.2)
     = messageOr (lit "An error occurred") e
  /\ PetFormDialog.formData (Env.self r.2) = formData
  /\ Env.calls r.2 = log ++ [CallOnSubmit formData]
  /\ MyPetsPage.pets after = MyPetsPage.pets page
  /\ MyPetsPage.formDialogOpen after = MyPetsPage.formDialogOpen page
  /\ MyPetsPage.editingPet after = MyPetsPage.editingPet page
  /\ MyPetsPage.formLoading after = false
  /\ Snackbar.open (MyPetsPage.snackbar after) = true
  /\ Snackbar.severity (MyPetsPage.snackbar after) = Severity.error.
Proof.
  intros formData Hvalid Hrej w r after. subst r after w.
  destruct (MyPetsPage.handleFormSubmit api formData
              (MyPetsPage.mkWorld page calls)) as [res w1] eqn:Hsub.
  assert (Hres : res = Thrown e
    /\ MyPetsPage.pets (MyPetsPage.view w1) = MyPetsPage.pets page
    /\ MyPetsPage.formDialogOpen (MyPetsPage.view w1)
       = MyPetsPage.formDialogOpen page
    /\ MyPetsPage.editingPet (MyPetsPage.view w1) = MyPetsPage.editingPet page
    /\ MyPetsPage.formLoading (MyPetsPage.view w1) = false
    /\ Snackbar.open (MyPetsPage.snackbar (MyPetsPage.view w1)) = true
    /\ Snackbar.severity (MyPetsPage.snackbar (MyPetsPage.view w1))
       = Severity.error).
  { revert Hsub. run_handlers.
    destruct (MyPetsPage.editingPet page) as [ep|]; simpl; rewrite Hrej; simpl;
      by intros [= <- <-]. }
  destruct Hres as (-> & Hrest).
  rewrite (handleSubmit_thrown (MyPetsPage.formDialogProps api page)
             (formInPage form (MyPetsPage.mkWorld page calls) log) e w1
             Hvalid Hsub).
  simpl. split; [done|]. split; [done|]. split; [done|]. split; [done|].
  exact Hrest.
Qed.

Lemma form_flow_failure_witness :
  let formData :=
    PetFormData.mk (lit "Rex") (lit "dog") (lit "Lab") 2%Q 20%Q (lit "high")
      (lit "None") [] false in
  let api :=
    apiService.mk (Returned []) (fun _ => Thrown (OtherValue (lit "503")))
      (fun _ _ => Thrown (OtherValue (lit "503"))) (fun _ => Returned tt) in
  let page :=
    MyPetsPage.mkState MyPetsPage.mockPets false None true false None None
      false false (Snackbar.mk false [] Severity.success) in
  let r :=
    PetFormDialog.handleSubmit (MyPetsPage.formDialogProps api page)
      (formInPage (PetFormDialog.mkState formData ∅ [])
         (MyPetsPage.mkWorld page []) []) in
  MyPetsPage.formDialogOpen (MyPetsPage.view (Env.parent r.2)) = true
  /\ PetFormDialog.submitError (Env.self r.2) = lit "An error occurred".
Proof.
  intros formData api page r.
  assert (Hv : PetFormDialog.newErrors formData = ∅) by (by vm_compute).
  destruct (form_flow_failure api page [] (PetFormDialog.mkState formData ∅ [])
              [] (OtherValue (lit "503")) Hv eq_refl)
    as (_ & Herr & _ & _ & _ & Hopen & _).
  split; [exact Hopen | exact Herr].
Defined.

(** ** The delete dialog inside the page *)



(** Backing out of either dialog. On the page, the cancel button or a
    dismissal of the delete dialog, and the close icon, the cancel button or a
    dismissal of the form, send no request and leave the list as it was; the
    dialog is closed and its selection cleared. *)
Theorem dialogs_cancelled
    (api : apiService.t) (page : MyPetsPage.State) (calls log : list Event)
    (form : PetFormDialog.State)
    (a : DeleteConfirmDialog.UserAction) (b : PetFormDialog.UserAction) :
  let w := MyPetsPage.mkWorld page calls in
  (MyPetsPage.deleteDialogOpen page = true ->
   is_Some (MyPetsPage.deletingPet page) ->
   a <> DeleteConfirmDialog.ClickConfirm ->
   let r :=
     DeleteConfirmDialog.dispatch (MyPetsPage.deleteDialogProps api page) a
       (deleteInPage w log) in
   let after := MyPetsPage.view (Env.parent r.2) in
   r.1 = Returned tt
   /\ requests (Env.parent r.2) = requests w
   /\ MyPetsPage.pets after = MyPetsPage.pets page
   /\ MyPetsPage.deleteDialogOpen after = false
   /\ MyPetsPage.deletingPet after = None)
  /\ (MyPetsPage.formDialogOpen page = true ->
      b = PetFormDialog.ClickCloseIcon \/ b = PetFormDialog.ClickCancel
      \/ b = PetFormDialog.Dismiss ->
      let r :=
        PetFormDialog.dispatch (MyPetsPage.formDialogProps api page) b
          (formInPage form w log) in
      let after := MyPetsPage.view (Env.parent r.2) in
      r.1 = Returned tt
      /\ Env.self r.2 = form
      /\ requests (Env.parent r.2) = requests w
      /\ MyPetsPage.pets after = MyPetsPage.pets page
      /\ MyPetsPage.formDialogOpen after = false
      /\ MyPetsPage.editingPet after = None).
Proof.
  split.
  - intros Ho [target Ht] Ha r after. subst r after.
    unfold DeleteConfirmDialog.dispatch, MyPetsPage.deleteDialogProps. simpl.
    rewrite Ht, Ho. simpl.
    destruct a; [|done|]; unfold callProp; simpl; run_handlers;
      (split; [done|]); (split; [by count_requests|]); done.
  - intros Ho Hb r after. subst r after.
    unfold PetFormDialog.dispatch, MyPetsPage.formDialogProps. simpl.
    rewrite Ho. simpl.
    destruct Hb as [->|[->| ->]]; unfold callProp; simpl; run_handlers;
      (split; [done|]); (split; [done|]);
      (split; [by count_requests|]); done.
Qed.

Lemma dialogs_cancelled_witness :
  let api :=
    apiService.mk (Returned []) (fun _ => Thrown (OtherValue []))
      (fun _ _ => Thrown (OtherValue [])) (fun _ => Returned tt) in
  let page :=
    MyPetsPage.mkState MyPetsPage.mockPets false None true true
      (head MyPetsPage.mockPets) (head MyPetsPage.mockPets) false false
      (Snackbar.mk false [] Severity.success) in
  let w := MyPetsPage.mkWorld page [] in
  MyPetsPage.deletingPet
    (MyPetsPage.view
       (Env.parent
          (DeleteConfirmDialog.dispatch (MyPetsPage.deleteDialogProps api page)
             DeleteConfirmDialog.ClickCancel (deleteInPage w [])).2)) = None
  /\ MyPetsPage.editingPet
       (MyPetsPage.view
          (Env.parent
             (PetFormDialog.dispatch (MyPetsPage.formDialogProps api page)
                PetFormDialog.ClickCancel
                (formInPage PetFormDialog.initial w [])).2)) = None.
Proof.
  intros api page w.
  destruct (dialogs_cancelled api page [] [] PetFormDialog.initial
              DeleteConfirmDialog.ClickCancel PetFormDialog.ClickCancel)
    as [Hd Hf].
  destruct Hd as (_ & _ & _ & _ & H1); [done | by eexists | discriminate |].
  destruct Hf as (_ & _ & _ & _ & _ & H2); [done | by right; left |].
  split; [exact H1 | exact H2].
Defined.

(** ** The health status that the operations store *)

(** The health status of the record that a create adds is decided by the
    API's answer alone: healthy when the answer has no health issues, empty
    ones or "None", needs-attention otherwise. What the form held as health
    issues plays no part in it. *)
Theorem created_record_status
    (api : apiService.t) (formData : PetFormData.t) (createdPet : Pet.t)
    (w : MyPetsPage.World) :
  MyPetsPage.editingPet (MyPetsPage.view w) = None ->
  apiService.createPet api formData = Returned createdPet ->
  let r := MyPetsPage.handleFormSubmit api formData w in
  let answered :=
    Pet.healthIssues createdPet = None
    \/ Pet.healthIssues createdPet = Some []
    \/ Pet.healthIssues createdPet = Some (lit "None") in
  exists added,
    last (MyPetsPage.pets (MyPetsPage.view r.2)) = Some added
    /\ (answered -> Pet.healthStatus added = Some healthy)
    /\ (~ answered -> Pet.healthStatus added = Some needs_attention).
Proof.
  destruct w as [page calls]. simpl. intros Hsel Hok. run_page.
  rewrite Hsel. simpl. rewrite Hok. simpl.
  exists (MyPetsPage.newPet createdPet formData).
  split; [by rewrite last_snoc|].
  pose proof (newPet_healthStatus createdPet formData) as Hh.
  split; [by intros H; apply Hh|].
  intros Hn.
  destruct (Pet.healthStatus (MyPetsPage.newPet createdPet formData))
    as [[]|] eqn:E; [|done|done].
  exfalso. by apply Hn, Hh.
Qed.

Lemma created_record_status_witness :
  let formData :=
    PetFormData.mk (lit "Rex") (lit "dog") (lit "Lab") 2%Q 20%Q (lit "high")
      (lit "None") [] false in
  let createdPet :=
    Pet.mk (lit "4") (lit "Rex") (lit "dog") (lit "Lab") 2%Q 20%Q (lit "high")
      (Some (lit "Arthritis")) None false None in
  let api :=
    apiService.mk (Returned []) (fun _ => Returned createdPet)
      (fun _ _ => Returned createdPet) (fun _ => Returned tt) in
  let w :=
    MyPetsPage.mkWorld
      (MyPetsPage.mkState MyPetsPage.mockPets false None true false None None
         false false (Snackbar.mk false [] Severity.success)) [] in
  exists added,
    last (MyPetsPage.pets
            (MyPetsPage.view (MyPetsPage.handleFormSubmit api formData w).2))
    = Some added
    /\ Pet.healthStatus added = Some needs_attention.
Proof.
  intros formData createdPet api w.
  destruct (created_record_status api formData createdPet w eq_refl eq_refl)
    as (added & Hl & _ & Hn).
  exists added. split; [exact Hl|]. apply Hn.
  intros [H|[H|H]]; [discriminate H | discriminate H |].
  apply (f_equal (fmap length)) in H. vm_compute in H. discriminate H.
Defined.

(** The record that an update stores has the identifier of the pet being
    edited and the nine fields of the form. Its health status is not derived
    from the new health issues: it is the one of the API's answer when the
    answer has one, and the previous one otherwise. *)
Theorem updated_record_fields
    (api : apiService.t) (editingPet updatedPet : Pet.t)
    (formData : PetFormData.t) (w : MyPetsPage.World) :
  MyPetsPage.editingPet (MyPetsPage.view w) = Some editingPet ->
  apiService.updatePet api (Pet.id editingPet) formData = Returned updatedPet ->
  let r := MyPetsPage.handleFormSubmit api formData w in
  forall stored,
    stored ∈ MyPetsPage.pets (MyPetsPage.view r.2) ->
    Pet.id stored = Pet.id editingPet ->
    PetFormDialog.fromPet stored = redisplayed formData
    /\ Pet.healthIssues stored = Some (PetFormData.healthIssues formData)
    /\ Pet.imageUrl stored = Some (PetFormData.imageUrl formData)
    /\ Pet.healthStatus stored
       = match Pet.healthStatus updatedPet with
         | Some status => Some status
         | None => Pet.healthStatus editingPet
         end.
Proof.
  destruct w as [page calls]. simpl. intros Hsel Hok. run_page.
  rewrite Hsel. simpl. rewrite Hok. simpl.
  intros stored Hin Hid. apply list_elem_of_fmap in Hin as (pet & -> & _).
  destruct (bool_decide (Pet.id pet = Pet.id editingPet)) eqn:E.
  - simpl. split; [|done].
    unfold PetFormDialog.fromPet, redisplayed. simpl.
    destruct (falsy (PetFormData.imageUrl formData)) eqn:Ei; [|done].
    apply falsy_true in Ei. by rewrite Ei.
  - apply bool_decide_eq_false in E. contradiction.
Qed.

Lemma updated_record_fields_witness :
  let formData :=
    PetFormData.mk (lit "Whiskers") (lit "cat") (lit "Persian") 3%Q 5%Q
      (lit "low") (lit "None") (lit "/pets/cat1.jpg") true in
  let whiskers :=
    Pet.mk (lit "2") (lit "Whiskers") (lit "Cat") (lit "Persian") 2%Q 4%Q
      (lit "Low") (Some (lit "Allergies")) (Some (lit "/pets/cat1.jpg")) true
      (Some needs_attention) in
  let answer :=
    Pet.mk (lit "2") (lit "Whiskers") (lit "cat") (lit "Persian") 3%Q 5%Q
      (lit "low") None None true None in
  let api :=
    apiService.mk (Returned []) (fun _ => Returned answer)
      (fun _ _ => Returned answer) (fun _ => Returned tt) in
  let w :=
    MyPetsPage.mkWorld
      (MyPetsPage.mkState MyPetsPage.mockPets false None true false
         (Some whiskers) None false false
         (Snackbar.mk false [] Severity.success)) [] in
  let stored := MyPetsPage.completeUpdatedPet whiskers answer formData in
  Pet.healthIssues stored = Some (lit "None")
  /\ Pet.healthStatus stored = Some needs_attention.
Proof.
  intros formData whiskers answer api w stored.
  destruct (updated_record_fields api whiskers answer formData w
              eq_refl eq_refl stored) as (_ & Hi & _ & Hs).
  - apply (list_elem_of_lookup_2 _ 1%nat). by vm_compute.
  - reflexivity.
  - split; [exact Hi | exact Hs].
Defined.
